(** * Insurance-claim agent pipeline (app.py): a shallow embedding

    The development follows [app.py]: the Python values the pipeline
    handles, the [json.loads] decoder it relies on, the wrapper
    [invoke_agent] and the orchestration [process_claim_run_agents].
    Effects (remote services, logging, the [results] dictionary) are
    threaded through a small state-and-exception monad; every run leaves
    a trace of the operations it performed. *)

From Stdlib Require Import String Ascii List ZArith Bool Lia DecimalString.
Import ListNotations.
Open Scope string_scope.

(** ** Python values *)

(** The Python objects that can flow through the pipeline.  A Python [str]
    is modelled by the sequence of its UTF-8 bytes.  [VFloat] keeps the
    literal a float was read from; the rounding to a binary64 is not
    modelled.  [VObj cls text] is an object of a class [cls] defined outside
    this program (for instance a chat-message object returned by the agent
    service) whose [__str__] yields [text]. *)
#[warnings="-register-all"]
Inductive value : Type :=
| VNone
| VBool (b : bool)
| VInt (z : Z)
| VFloat (lit : string)
| VStr (s : string)
| VList (l : list value)
| VDict (d : list (string * value))
| VTuple (l : list value)
| VObj (cls : string) (text : string).

(** A Python [dict] with [str] keys, in insertion order. *)
Definition dict : Type := list (string * value).

(** [d[k] = v]: an existing key keeps its position, a new key goes last. *)
Fixpoint dict_set (d : dict) (k : string) (v : value) : dict :=
  match d with
  | [] => [(k, v)]
  | (k', v') :: rest =>
      if String.eqb k' k then (k', v) :: rest
      else (k', v') :: dict_set rest k v
  end.

Fixpoint dict_get (d : dict) (k : string) : option value :=
  match d with
  | [] => None
  | (k', v') :: rest => if String.eqb k' k then Some v' else dict_get rest k
  end.

Definition dict_keys (d : dict) : list string := map fst d.

(** [type(v).__name__] *)
Definition type_name (v : value) : string :=
  match v with
  | VNone => "NoneType"
  | VBool _ => "bool"
  | VInt _ => "int"
  | VFloat _ => "float"
  | VStr _ => "str"
  | VList _ => "list"
  | VDict _ => "dict"
  | VTuple _ => "tuple"
  | VObj cls _ => cls
  end.

(** ** Exceptions *)

(** Instances of Python's [Exception].  [str(e)] is [exn_msg e]; for a
    [JSONDecodeError] the position suffix of the message is left out (the
    program never reads it).  [ValueError] stands for the instances of
    ValueError that are not instances of its subclass JSONDecodeError. *)
Inductive exn_class : Type :=
| JSONDecodeError
| AttributeError
| IndexError
| RecursionError
| ValueError
| ServiceError (name : string).

Record exn : Type := mkExn { exn_cls : exn_class; exn_msg : string }.

Definition is_JSONDecodeError (e : exn) : bool :=
  match exn_cls e with JSONDecodeError => true | _ => false end.

(** [except Exception]: every modelled exception is an instance. *)
Definition is_Exception (e : exn) : bool := true.

Definition decode_error (msg : string) : exn := mkExn JSONDecodeError msg.

(** The exceptions by which [json.loads] reports that a limit of the
    interpreter was reached, not that the text is no JSON. *)
Definition limit_fault (e : exn) : bool :=
  match exn_cls e with
  | RecursionError | ValueError => true
  | _ => false
  end.

(** [v.get(key, default)]: only a [dict] has the method. *)
Definition py_get (v : value) (key : string) (default : value) : exn + value :=
  match v with
  | VDict d =>
      inr (match dict_get d key with Some x => x | None => default end)
  | _ =>
      inl (mkExn AttributeError
             ("'" ++ type_name v ++ "' object has no attribute 'get'"))
  end.

(** [t[0]] on the elements of a tuple. *)
Definition tuple_first (l : list value) : exn + value :=
  match l with
  | [] => inl (mkExn IndexError "tuple index out of range")
  | x :: _ => inr x
  end.

(** ** Characters used by the decoder and by the prompts *)

Definition dquote : ascii := "034"%char.
Definition backslash : ascii := "092"%char.
Definition dq : string := String dquote EmptyString.
Definition nl : string := String "010"%char EmptyString.

(** WHITESPACE of json.decoder: space, tab, line feed, carriage return. *)
Definition is_ws (c : ascii) : bool :=
  (c =? " ")%char || (c =? "009")%char || (c =? "010")%char || (c =? "013")%char.

Fixpoint skip_ws (s : string) : string :=
  match s with
  | String c r => if is_ws c then skip_ws r else s
  | EmptyString => s
  end.

(** [s] without the prefix [p], when it starts with [p]. *)
Fixpoint strip_prefix (p s : string) : option string :=
  match p, s with
  | EmptyString, _ => Some s
  | String a p', String b s' => if (a =? b)%char then strip_prefix p' s' else None
  | String _ _, EmptyString => None
  end.

Definition is_digit (c : ascii) : bool :=
  let n := nat_of_ascii c in (48 <=? n)%nat && (n <=? 57)%nat.

Definition digit_val (c : ascii) : Z := Z.of_nat (nat_of_ascii c) - 48.

Definition hex_val (c : ascii) : option N :=
  let n := N_of_ascii c in
  if (48 <=? n)%N && (n <=? 57)%N then Some (n - 48)%N
  else if (65 <=? n)%N && (n <=? 70)%N then Some (n - 55)%N
  else if (97 <=? n)%N && (n <=? 102)%N then Some (n - 87)%N
  else None.

(** The four hexadecimal digits after a backslash-u, and what follows. *)
Definition decode_uXXXX (s : string) : option (N * string) :=
  match s with
  | String a (String b (String c (String d rest))) =>
      match hex_val a, hex_val b, hex_val c, hex_val d with
      | Some x, Some y, Some z, Some w =>
          Some (((x * 16 + y) * 16 + z) * 16 + w, rest)%N
      | _, _, _, _ => None
      end
  | _ => None
  end.

Definition byte_of (n : N) : string := String (ascii_of_N n) EmptyString.

(** [chr(n)] as UTF-8 bytes (a lone surrogate gets its three-byte form). *)
Definition chr_utf8 (n : N) : string :=
  if (n <? 128)%N then byte_of n
  else if (n <? 2048)%N then
    byte_of (192 + n / 64) ++ byte_of (128 + n mod 64)
  else if (n <? 65536)%N then
    byte_of (224 + n / 4096) ++ byte_of (128 + (n / 64) mod 64)
      ++ byte_of (128 + n mod 64)
  else
    byte_of (240 + n / 262144) ++ byte_of (128 + (n / 4096) mod 64)
      ++ byte_of (128 + (n / 64) mod 64) ++ byte_of (128 + n mod 64).

Definition BACKSLASH (esc : ascii) : option string :=
  if (esc =? dquote)%char then Some dq
  else if (esc =? backslash)%char then Some (String backslash EmptyString)
  else if (esc =? "/")%char then Some "/"
  else if (esc =? "b")%char then Some (byte_of 8)
  else if (esc =? "f")%char then Some (byte_of 12)
  else if (esc =? "n")%char then Some (byte_of 10)
  else if (esc =? "r")%char then Some (byte_of 13)
  else if (esc =? "t")%char then Some (byte_of 9)
  else None.

(** ** The JSON decoder (Python's [json.loads] on a [str])

    A model of CPython's json.decoder and json.scanner with the default,
    strict, settings.  Positions are not tracked: an error carries the
    message of the JSONDecodeError only.  The two limits of the interpreter
    that the decoder can reach are part of the model: the recursion limit,
    checked each time the scanner enters an array or an object, and the
    limit on the digits of an [int] literal. *)

Definition unterminated : exn := decode_error "Unterminated string starting at".
Definition expecting_value : exn := decode_error "Expecting value".

(** What the model answers when its own fuel runs out; [json_decode] gives
    the scanner fuel for the whole text. *)
Definition recursion_error : exn :=
  mkExn RecursionError "maximum recursion depth exceeded while decoding a JSON document".

(** The RecursionError of the interpreter when one more level of its
    stack is refused to the operation [doing]. *)
Definition recursion_limit (doing : string) : exn :=
  mkExn RecursionError ("maximum recursion depth exceeded" ++ doing).

(** The RecursionError of the scanner when it may not enter one more array
    or object. *)
Definition recursion_error_in (container : string) : exn :=
  recursion_limit
    (" while decoding a JSON " ++ container ++ " from a unicode string").

Definition decimal (n : nat) : string := NilZero.string_of_uint (Nat.to_uint n).

(** The ValueError of [int] on a literal longer than the interpreter
    allows. *)
Definition int_digits_error (limit digits : nat) : exn :=
  mkExn ValueError
    ("Exceeds the limit (" ++ decimal limit
       ++ " digits) for integer string conversion: value has "
       ++ decimal digits
       ++ " digits; use sys.set_int_max_str_digits() to increase the limit").

(** [int] refuses a decimal literal of [digits] digits when a limit is set
    (0 is no limit), the literal is longer than it, and longer than the
    640 digits below which the check is not made. *)
Definition int_too_long (max_digits digits : nat) : bool :=
  (640 <? digits)%nat && (0 <? max_digits)%nat && (max_digits <? digits)%nat.

(** One more level of nesting: what is left of the depth the interpreter
    allows ([None] is no limit), or nothing when none is left. *)
Definition enter (depth : option nat) : option (option nat) :=
  match depth with
  | None => Some None
  | Some O => None
  | Some (S d) => Some (Some d)
  end.

(** The scanner raises a JSONDecodeError by calling the class.  The call,
    the frame of its [__init__] and the calls [__init__] makes take three
    levels of the stack; with [depth] less than that, what is raised is the
    RecursionError of the level that was refused.  ("Expecting value" is
    not raised this way: the scanner signals it by a StopIteration, which
    the decoder turns into the JSONDecodeError outside the scanner.) *)
Definition raise_errmsg (depth : option nat) (e : exn) : exn :=
  match depth with
  | Some 0 | Some 2 => recursion_limit " while calling a Python object"
  | Some 1 => recursion_limit ""
  | _ => e
  end.

(** [NaN], [Infinity] and [-Infinity] are made by a call of
    [parse_constant], which takes one level of the stack. *)
Definition parse_constant (depth : option nat) (lit rest : string)
  : exn + (value * string) :=
  match depth with
  | Some 0 => inl (recursion_limit " while calling a Python object")
  | _ => inr (VFloat lit, rest)
  end.

(** [scanstring]: the text after an opening quote, up to the closing one.
    [fuel] bounds the number of chunks; the length of the text is enough. *)
Fixpoint scanstring (fuel : nat) (s : string) : exn + (string * string) :=
  match fuel with
  | O => inl unterminated
  | S fuel =>
    match s with
    | EmptyString => inl unterminated
    | String c r =>
      if (c =? dquote)%char then inr ("", r)
      else if (c =? backslash)%char then
        match r with
        | EmptyString => inl unterminated
        | String esc r' =>
          if (esc =? "u")%char then
            match decode_uXXXX r' with
            | None => inl (decode_error "Invalid \uXXXX escape")
            | Some (uni, r2) =>
              let low :=
                if (55296 <=? uni)%N && (uni <=? 56319)%N then
                  match strip_prefix (String backslash "u") r2 with
                  | Some r3 =>
                    match decode_uXXXX r3 with
                    | Some (uni2, r4) =>
                      if (56320 <=? uni2)%N && (uni2 <=? 57343)%N
                      then Some (uni2, r4) else None
                    | None => None
                    end
                  | None => None
                  end
                else None in
              let '(code, rest) :=
                match low with
                | Some (uni2, r4) =>
                  (65536 + ((uni - 55296) * 1024 + (uni2 - 56320)), r4)%N
                | None => (uni, r2)
                end in
              match scanstring fuel rest with
              | inl e => inl e
              | inr (tl, rest') => inr (chr_utf8 code ++ tl, rest')
              end
            end
          else
            match BACKSLASH esc with
            | None => inl (decode_error "Invalid \escape")
            | Some ch =>
              match scanstring fuel r' with
              | inl e => inl e
              | inr (tl, rest') => inr (ch ++ tl, rest')
              end
            end
        end
      else if (N_of_ascii c <? 32)%N then
        inl (decode_error "Invalid control character at")
      else
        match scanstring fuel r with
        | inl e => inl e
        | inr (tl, rest') => inr (String c tl, rest')
        end
    end
  end.

(** The longest run of decimal digits at the head of [s]. *)
Fixpoint span_digits (s : string) : string * string :=
  match s with
  | String c r =>
    if is_digit c then let '(ds, rest) := span_digits r in (String c ds, rest)
    else ("", s)
  | EmptyString => ("", s)
  end.

Fixpoint digits_value (acc : Z) (ds : string) : Z :=
  match ds with
  | String c r => digits_value (acc * 10 + digit_val c) r
  | EmptyString => acc
  end.

(** The integer part of NUMBER_RE: a 0, or a non-zero digit and more digits. *)
Definition match_int (s : string) : option (string * string) :=
  match s with
  | String c r =>
    if (c =? "0")%char then Some ("0", r)
    else if is_digit c then
      let '(ds, rest) := span_digits r in Some (String c ds, rest)
    else None
  | EmptyString => None
  end.

(** An optional fraction: a dot and at least one digit. *)
Definition match_frac (s : string) : string * string :=
  match s with
  | String c r =>
    if (c =? ".")%char then
      match span_digits r with
      | (EmptyString, _) => ("", s)
      | (ds, rest) => (String c ds, rest)
      end
    else ("", s)
  | EmptyString => ("", s)
  end.

(** An optional exponent: e or E, an optional sign, at least one digit. *)
Definition match_exp (s : string) : string * string :=
  match s with
  | String c r =>
    if (c =? "e")%char || (c =? "E")%char then
      let '(sign, r') :=
        match r with
        | String g r1 =>
          if (g =? "+")%char || (g =? "-")%char then (String g "", r1) else ("", r)
        | EmptyString => ("", r)
        end in
      match span_digits r' with
      | (EmptyString, _) => ("", s)
      | (ds, rest) => (String c (sign ++ ds), rest)
      end
    else ("", s)
  | EmptyString => ("", s)
  end.

(** NUMBER_RE at the head of [s]: an [int] without fraction and exponent,
    a [float] otherwise.  The [int] is refused when its literal is too
    long. *)
Definition match_number (max_digits : nat) (s : string)
  : option (exn + (value * string)) :=
  let '(neg, s1) :=
    match s with
    | String c r => if (c =? "-")%char then (true, r) else (false, s)
    | EmptyString => (false, s)
    end in
  match match_int s1 with
  | None => None
  | Some (ip, s2) =>
    let '(fp, s3) := match_frac s2 in
    let '(ep, s4) := match_exp s3 in
    match fp, ep with
    | EmptyString, EmptyString =>
      if int_too_long max_digits (String.length ip) then
        Some (inl (int_digits_error max_digits (String.length ip)))
      else
        let n := digits_value 0 ip in
        Some (inr (VInt (if neg then - n else n), s4))
    | _, _ =>
      Some (inr (VFloat ((if neg then "-" else "") ++ ip ++ fp ++ ep), s4))
    end
  end.

(** The literals of the scanner other than strings, objects and arrays. *)
Definition scan_atom (max_digits : nat) (depth : option nat) (s : string)
  : exn + (value * string) :=
  match strip_prefix "null" s with
  | Some r => inr (VNone, r)
  | None =>
  match strip_prefix "true" s with
  | Some r => inr (VBool true, r)
  | None =>
  match strip_prefix "false" s with
  | Some r => inr (VBool false, r)
  | None =>
  match match_number max_digits s with
  | Some res => res
  | None =>
  match strip_prefix "NaN" s with
  | Some r => parse_constant depth "NaN" r
  | None =>
  match strip_prefix "Infinity" s with
  | Some r => parse_constant depth "Infinity" r
  | None =>
  match strip_prefix "-Infinity" s with
  | Some r => parse_constant depth "-Infinity" r
  | None => inl expecting_value
  end end end end end end end.

(** [scan_once] with [JSONArray] and [JSONObject].  The two loops take the
    text after the opening bracket (or after a comma) with the white space
    skipped, and the members read so far.  [depth] is the number of levels
    of the interpreter's stack that are left ([None]: no limit): each array
    or object entered takes one, and entering one with none left raises
    RecursionError.  [fuel] only makes the recursion structural. *)
Fixpoint scan_once (max_digits fuel : nat) (depth : option nat) (s : string)
  : exn + (value * string) :=
  match fuel with
  | O => inl recursion_error
  | S fuel =>
    match s with
    | EmptyString => inl expecting_value
    | String c r =>
      if (c =? dquote)%char then
        match scanstring (String.length r) r with
        | inl e => inl (raise_errmsg depth e)
        | inr (str, rest) => inr (VStr str, rest)
        end
      else if (c =? "{")%char then
        match enter depth with
        | None => inl (recursion_error_in "object")
        | Some depth =>
          match skip_ws r with
          | String c' r' =>
            if (c' =? "}")%char then inr (VDict [], r')
            else if (c' =? dquote)%char then JSONObject max_digits fuel depth [] r'
            else inl (raise_errmsg depth
                        (decode_error
                           "Expecting property name enclosed in double quotes"))
          | EmptyString =>
            inl (raise_errmsg depth
                   (decode_error
                      "Expecting property name enclosed in double quotes"))
          end
        end
      else if (c =? "[")%char then
        match enter depth with
        | None => inl (recursion_error_in "array")
        | Some depth =>
          match skip_ws r with
          | String c' r' =>
            if (c' =? "]")%char then inr (VList [], r')
            else JSONArray max_digits fuel depth [] (String c' r')
          | EmptyString => JSONArray max_digits fuel depth [] EmptyString
          end
        end
      else scan_atom max_digits depth s
    end
  end

with JSONArray (max_digits fuel : nat) (depth : option nat)
               (values : list value) (s : string)
  : exn + (value * string) :=
  match fuel with
  | O => inl recursion_error
  | S fuel =>
    match scan_once max_digits fuel depth s with
    | inl e => inl e
    | inr (v, rest) =>
      match skip_ws rest with
      | String c r =>
        if (c =? "]")%char then inr (VList (values ++ [v]), r)
        else if (c =? ",")%char
        then JSONArray max_digits fuel depth (values ++ [v]) (skip_ws r)
        else inl (raise_errmsg depth (decode_error "Expecting ',' delimiter"))
      | EmptyString =>
        inl (raise_errmsg depth (decode_error "Expecting ',' delimiter"))
      end
    end
  end

with JSONObject (max_digits fuel : nat) (depth : option nat)
                (pairs : dict) (s : string)
  : exn + (value * string) :=
  match fuel with
  | O => inl recursion_error
  | S fuel =>
    match scanstring (String.length s) s with
    | inl e => inl (raise_errmsg depth e)
    | inr (key, rest) =>
      match skip_ws rest with
      | String c r =>
        if (c =? ":")%char then
          match scan_once max_digits fuel depth (skip_ws r) with
          | inl e => inl e
          | inr (v, rest') =>
            match skip_ws rest' with
            | String c' r' =>
              if (c' =? "}")%char then inr (VDict (dict_set pairs key v), r')
              else if (c' =? ",")%char then
                match skip_ws r' with
                | String c2 r2 =>
                  if (c2 =? dquote)%char
                  then JSONObject max_digits fuel depth (dict_set pairs key v) r2
                  else inl (raise_errmsg depth
                              (decode_error
                                 "Expecting property name enclosed in double quotes"))
                | EmptyString =>
                  inl (raise_errmsg depth
                         (decode_error
                            "Expecting property name enclosed in double quotes"))
                end
              else inl (raise_errmsg depth
                          (decode_error "Expecting ',' delimiter"))
            | EmptyString =>
              inl (raise_errmsg depth (decode_error "Expecting ',' delimiter"))
            end
          end
        else inl (raise_errmsg depth (decode_error "Expecting ':' delimiter"))
      | EmptyString =>
        inl (raise_errmsg depth (decode_error "Expecting ':' delimiter"))
      end
    end
  end.

(** The UTF-8 form of U+FEFF. *)
Definition BOM : string := byte_of 239 ++ byte_of 187 ++ byte_of 191.

(** The decoder behind [json.loads(s)]: one value, white space around it,
    nothing else, read under the interpreter's two limits: the scanner
    starts with [depth] levels of the stack left, and an [int] literal of
    more than [max_digits] digits raises ValueError. *)
Definition json_decode (depth : option nat) (max_digits : nat) (s : string)
  : exn + value :=
  match strip_prefix BOM s with
  | Some _ => inl (decode_error "Unexpected UTF-8 BOM (decode using utf-8-sig)")
  | None =>
    match scan_once max_digits (2 * String.length s + 2) depth (skip_ws s) with
    | inl e => inl e
    | inr (v, rest) =>
      match skip_ws rest with
      | EmptyString => inr v
      | String _ _ => inl (decode_error "Extra data")
      end
    end
  end.

(** A text of the JSON grammar the decoder accepts, whatever its nesting
    and the length of its numbers. *)
Definition valid_json (s : string) : bool :=
  match json_decode None 0 s with
  | inr _ => true
  | inl _ => false
  end.


(** ** The platform the program runs on *)

(** What lies outside [app.py]: the Azure identity and agent services, seen
    as operations on a state [World] that either raise or return, the
    connection string read from the process environment, Python's [repr]
    of floats, containers and tuples, and the two limits of the interpreter
    that [json.loads] can reach. *)
Class Platform : Type := {
  World : Type;
  Cred : Type;
  Client : Type;
  AgentDef : Type;
  PROJECT_CONNECTION_STRING : string;
  (** [DefaultAzureCredential()] entered as a context manager *)
  open_credential : World -> (exn + Cred) * World;
  close_credential : Cred -> World -> World;
  (** [AzureAIAgent.create_client(credential, conn_str)] entered *)
  create_client : Cred -> string -> World -> (exn + Client) * World;
  close_client : Client -> World -> World;
  (** [client.agents.get_agent(id)] *)
  get_agent : Client -> string -> World -> (exn + AgentDef) * World;
  (** [AzureAIAgent(client, definition).get_response(messages=query)] *)
  get_response : Client -> AgentDef -> string -> World -> (exn + value) * World;
  py_repr : value -> string;
  (** the levels of the interpreter's stack that are left when the scanner
      of [json.loads], called from [process_claim_run_agents], starts,
      beyond the three that raising a JSONDecodeError takes:
      [sys.getrecursionlimit()] less the frames on the stack, less three.
      It is taken to be the same at both calls of [json.loads], and the
      program's own calls are taken to fit under the limit. *)
  RECURSION_HEADROOM : nat;
  (** [sys.get_int_max_str_digits()] *)
  INT_MAX_STR_DIGITS : nat
}.

Section Pipeline.

Context {P : Platform}.

(** [str(v)], which is also what an f-string field with no format
    specification inserts.  [str] of an [int] is taken not to raise: an
    integer field of the parsed claim has had its length checked by
    [json.loads] against the limit that [str] applies, and the agent
    service answers with messages and text, not with integers beyond that
    limit. *)
Definition py_str (v : value) : string :=
  match v with
  | VStr s => s
  | VObj _ text => text
  | VNone => "None"
  | VBool true => "True"
  | VBool false => "False"
  | VInt z => NilZero.string_of_int (Z.to_int z)
  | VFloat _ | VList _ | VDict _ | VTuple _ => py_repr v
  end.

(** [AzureAIAgent(client=..., definition=...)] *)
Record Agent : Type := mkAgent { agent_client : Client; agent_definition : AgentDef }.

(** What a run does, in order. *)
Inductive event : Type :=
| Invoked (agent : Agent) (query : string) (fault : option exn) (response : value)
    (** [invoke_agent agent query] made its round trip and returned
        [response]; [fault] is the exception it caught, if any *)
| Logged (msg : string) (exc : exn)
    (** [logging.exception(msg)] while [exc] is being handled *)
| Decoded (text : string)          (** [json.loads(text)] was attempted *)
| Stored (key : string) (v : value) (** [results[key] = v] *)
| Wrote (msg : string).            (** [st.write(msg)] *)

Record state : Type := mkState {
  st_world : World;
  st_results : dict;
  st_trace : list event
}.

(** How a block of statements ends: it falls through with a value, raises,
    or executes [return results]. *)
Inductive outcome (A : Type) : Type :=
| Normal (a : A)
| Raised (e : exn)
| Returned.
Arguments Normal {A} a.
Arguments Raised {A} e.
Arguments Returned {A}.

Definition M (A : Type) : Type := state -> outcome A * state.

Definition ret {A} (a : A) : M A := fun s => (Normal a, s).

Definition bind {A B} (m : M A) (f : A -> M B) : M B :=
  fun s =>
    match m s with
    | (Normal a, s') => f a s'
    | (Raised e, s') => (Raised e, s')
    | (Returned, s') => (Returned, s')
    end.

Notation "x <- m ;; k" := (bind m (fun x => k))
  (at level 61, m at next level, right associativity).
Notation "m ;; k" := (bind m (fun _ => k))
  (at level 61, right associativity).

(** A pure operation that may raise. *)
Definition lift {A} (r : exn + A) : M A :=
  fun s => match r with inl e => (Raised e, s) | inr a => (Normal a, s) end.

(** A call to one of the services. *)
Definition call {A} (op : World -> (exn + A) * World) : M A :=
  fun s =>
    let '(r, w) := op (st_world s) in
    let s' := mkState w (st_results s) (st_trace s) in
    match r with inl e => (Raised e, s') | inr a => (Normal a, s') end.

Definition emit (ev : event) : M unit :=
  fun s => (Normal tt, mkState (st_world s) (st_results s) (st_trace s ++ [ev])).

(** [try: body / except cls as e: handler e] *)
Definition try_except {A} (body : M A) (cls : exn -> bool) (handler : exn -> M A)
  : M A :=
  fun s =>
    match body s with
    | (Raised e, s') => if cls e then handler e s' else (Raised e, s')
    | r => r
    end.

(** [async with enter as r: body r]; the resource is released however the
    body ends.  Releasing does not raise. *)
Definition async_with {R A} (enter : M R) (release : R -> World -> World)
    (body : R -> M A) : M A :=
  fun s =>
    match enter s with
    | (Normal r, s1) =>
        let '(o, s2) := body r s1 in
        (o, mkState (release r (st_world s2)) (st_results s2) (st_trace s2))
    | (Raised e, s1) => (Raised e, s1)
    | (Returned, s1) => (Returned, s1)
    end.

Definition logging_exception (msg : string) (exc : exn) : M unit :=
  emit (Logged msg exc).
Definition st_write (msg : string) : M unit := emit (Wrote msg).

(** [results[key] = v] *)
Definition set_result (key : string) (v : value) : M unit :=
  fun s =>
    (Normal tt,
     mkState (st_world s) (dict_set (st_results s) key v)
       (st_trace s ++ [Stored key v])).

(** [return results] from inside the nested blocks. *)
Definition return_results {A} : M A := fun s => (Returned, s).

(** [json.loads(text)] as the interpreter of the platform runs it. *)
Definition json_loads (text : string) : exn + value :=
  json_decode (Some (3 + RECURSION_HEADROOM)) INT_MAX_STR_DIGITS text.

(** [json.loads(text)] does not reach a limit of the interpreter: it raises
    neither RecursionError nor the ValueError of an over-long integer. *)
Definition within_limits (text : string) : bool :=
  match json_loads text with
  | inl e => negb (limit_fault e)
  | inr _ => true
  end.

Definition json_loads_m (text : string) : M value :=
  emit (Decoded text) ;; lift (json_loads text).

(** ** Constants of app.py *)

Definition CLAIM_QUERY : string :=
  "A customer holding Policy 2 is requesting damages of 4000 euros for claim type B. "
  ++ "The customer states that these costs are due to being rear ended with their car, requiring "
  ++ "costs to replace the rear bumper for their car.".

Definition JSON_FORMAT : string :=
  nl ++ "Please provide a valid JSON response (no markdown formatting, just JSON) with the following structure:" ++ nl
  ++ "{" ++ nl
  ++ "  " ++ dq ++ "policy_assessor" ++ dq ++ ": {" ++ nl
  ++ "    " ++ dq ++ "policy_number" ++ dq ++ ": " ++ dq ++ "value" ++ dq ++ "," ++ nl
  ++ "    " ++ dq ++ "claim_type" ++ dq ++ ": " ++ dq ++ "value" ++ dq ++ "," ++ nl
  ++ "    " ++ dq ++ "damage_claim" ++ dq ++ ": " ++ dq ++ "value" ++ dq ++ nl
  ++ "  }," ++ nl
  ++ "  " ++ dq ++ "fraud_detector" ++ dq ++ ": {" ++ nl
  ++ "    " ++ dq ++ "claim_description" ++ dq ++ ": " ++ dq ++ "value" ++ dq ++ nl
  ++ "  }" ++ nl
  ++ "}".

Definition AGENTS_AND_QUERIES : list (string * list (string * string)) :=
  [ ("ClaimHandlerAgent", [("id", "asst_8WPO5fEmxYN96N2yAoIjbrDb")]);
    ("PolicyAssessorAgent", [("id", "asst_eUiaOd5KjushG1semhHqtZtX")]);
    ("FraudDetectionAgent", [("id", "asst_6dHVA9CV9BH3NAlootUQoj23")]);
    ("ClaimEvaluatorAgent", [("id", "asst_k2syPJidqJUINBz7g1jvzssN")]) ].

Fixpoint table_get {A} (t : list (string * A)) (k : string) : option A :=
  match t with
  | [] => None
  | (k', a) :: rest => if String.eqb k' k then Some a else table_get rest k
  end.

(** [AGENTS_AND_QUERIES[name]["id"]].  The four names the program uses are
    in the table, so the lookup never fails there. *)
Definition agent_id (name : string) : string :=
  match table_get AGENTS_AND_QUERIES name with
  | Some entry => match table_get entry "id" with Some i => i | None => "" end
  | None => ""
  end.

Definition SENTINEL : string := "Error invoking agent.".

Definition clarification_query : string :=
  "The output provided does not appear to be valid JSON."
  ++ "Please provide a valid JSON response following the specified structure.".

Definition FATAL_PARSE : string := "Clarification attempt failed, stop process.".

Definition policy_query (policy_number claim_type damage_claim : value) : string :=
  "Based on the claim details: policy number " ++ py_str policy_number
  ++ ", claim type " ++ py_str claim_type
  ++ ", and damage claim amount " ++ py_str damage_claim ++ " euros, "
  ++ "determine if the customer is appropriately covered under their policy.".

Definition fraud_query (claim_description : value) : string :=
  "Using the following claim description: " ++ py_str claim_description ++ ", "
  ++ "evaluate whether there are any red flags or suspicious elements in the claim.".

Definition evaluator_query (policy_assessment fraud_assessment : value) : string :=
  "Policy Assessment: " ++ py_str policy_assessment ++ nl
  ++ "Fraud Assessment: " ++ py_str fraud_assessment ++ nl
  ++ "Based on the above assessments, should the claim be approved or rejected? Provide a concise explanation.".

(** ** invoke_agent *)

Definition invoke_agent (agent : Agent) (query : string) : M value :=
  try_except
    (response <- call (get_response (agent_client agent)
                         (agent_definition agent) query) ;;
     response <- match response with
                 | VTuple items => lift (tuple_first items)
                 | _ => ret response
                 end ;;
     emit (Invoked agent query None response) ;;
     ret response)
    is_Exception
    (fun e =>
       logging_exception "Error invoking agent." e ;;
       emit (Invoked agent query (Some e) (VStr SENTINEL)) ;;
       ret (VStr SENTINEL)).

(** ** process_claim_run_agents *)

(** Lines 126 to 128: the three fields read for the policy query. *)
Definition policy_fields (parsed_claim : value) : exn + (value * value * value) :=
  match py_get parsed_claim "policy_assessor" (VDict []) with
  | inl e => inl e
  | inr pa1 =>
  match py_get pa1 "policy_number" VNone with
  | inl e => inl e
  | inr policy_number =>
  match py_get parsed_claim "policy_assessor" (VDict []) with
  | inl e => inl e
  | inr pa2 =>
  match py_get pa2 "claim_type" VNone with
  | inl e => inl e
  | inr claim_type =>
  match py_get parsed_claim "policy_assessor" (VDict []) with
  | inl e => inl e
  | inr pa3 =>
  match py_get pa3 "damage_claim" VNone with
  | inl e => inl e
  | inr damage_claim => inr (policy_number, claim_type, damage_claim)
  end end end end end end.

(** Line 146: the field read for the fraud query. *)
Definition fraud_field (parsed_claim : value) : exn + value :=
  match py_get parsed_claim "fraud_detector" (VDict []) with
  | inl e => inl e
  | inr fd => py_get fd "claim_description" VNone
  end.

(** The statements inside the two [async with] blocks, lines 94 to 173. *)
Definition run_stages (client : Client) (full_claim_query : string) : M unit :=
  claim_handler_def <- call (get_agent client (agent_id "ClaimHandlerAgent")) ;;
  let claim_handler := mkAgent client claim_handler_def in
  let claim_handler_query := full_claim_query in
  structured_claim_json <- invoke_agent claim_handler claim_handler_query ;;
  set_result "ClaimHandlerAgent Output" structured_claim_json ;;
  parsed_claim <-
    try_except
      (json_loads_m (py_str structured_claim_json))
      is_JSONDecodeError
      (fun e =>
         logging_exception
           "Failed to parse JSON output from ClaimHandlerAgent. Attempting clarification..." e ;;
         clarification_output <- invoke_agent claim_handler clarification_query ;;
         try_except
           (json_loads_m (py_str clarification_output))
           is_JSONDecodeError
           (fun e' =>
              logging_exception "Clarification attempt failed, stop process." e' ;;
              set_result "error" (VStr FATAL_PARSE) ;;
              return_results)) ;;
  set_result "Parsed Claim" parsed_claim ;;
  fields <- lift (policy_fields parsed_claim) ;;
  let '(policy_number, claim_type, damage_claim) := fields in
  let policy_query := policy_query policy_number claim_type damage_claim in
  define_policy_agent <- call (get_agent client (agent_id "PolicyAssessorAgent")) ;;
  let policy_agent := mkAgent client define_policy_agent in
  st_write (nl ++ "Sending query to PolicyAssessorAgent...") ;;
  policy_assessment <- invoke_agent policy_agent policy_query ;;
  set_result "PolicyAssessorAgent Output" policy_assessment ;;
  claim_description <- lift (fraud_field parsed_claim) ;;
  let fraud_query := fraud_query claim_description in
  define_fraud_agent <- call (get_agent client (agent_id "FraudDetectionAgent")) ;;
  let fraud_agent := mkAgent client define_fraud_agent in
  st_write (nl ++ "Sending query to FraudDetectionAgent...") ;;
  fraud_assessment <- invoke_agent fraud_agent fraud_query ;;
  set_result "FraudDetectionAgent Output" fraud_assessment ;;
  let evaluator_query := evaluator_query policy_assessment fraud_assessment in
  define_claim_evaluator_agent <-
    call (get_agent client (agent_id "ClaimEvaluatorAgent")) ;;
  let claim_evaluator_agent := mkAgent client define_claim_evaluator_agent in
  st_write (nl ++ "Sending query to ClaimEvaluatorAgent:") ;;
  claim_evaluator_assesment <- invoke_agent claim_evaluator_agent evaluator_query ;;
  set_result "ClaimEvaluatorAgent Output" claim_evaluator_assesment.

(** The body of the outer [try], lines 85 to 173. *)
Definition try_body (custom_claim_query : string) : M unit :=
  let full_claim_query := custom_claim_query ++ JSON_FORMAT in
  async_with (call open_credential) close_credential (fun creds =>
    async_with (call (create_client creds PROJECT_CONNECTION_STRING)) close_client
      (fun client => run_stages client full_claim_query)).

(** The function from [results = {}] to its last line.  The state it ends
    in holds the dictionary it returns: [return results] hands out the
    dictionary object itself. *)
Definition run (custom_claim_query : string) (w : World) : outcome unit * state :=
  try_except
    (try_body custom_claim_query)
    is_Exception
    (fun e =>
       logging_exception "An unexpected error occurred ." e ;;
       set_result "error" (VStr (exn_msg e)))
    (mkState w [] []).

Definition process_claim_run_agents (custom_claim_query : string) (w : World) : dict :=
  st_results (snd (run custom_claim_query w)).

(** The trace of a run, and the state of the services after it. *)
Definition run_trace (custom_claim_query : string) (w : World) : list event :=
  st_trace (snd (run custom_claim_query w)).

Definition run_world (custom_claim_query : string) (w : World) : World :=
  st_world (snd (run custom_claim_query w)).

(** ** Reading a trace *)

Definition is_invocation (ev : event) : bool :=
  match ev with Invoked _ _ _ _ => true | _ => false end.

Definition is_decode (ev : event) : bool :=
  match ev with Decoded _ => true | _ => false end.

Definition is_clarification (ev : event) : bool :=
  match ev with
  | Invoked _ query _ _ => String.eqb query clarification_query
  | _ => false
  end.

(** The agent round trips of a trace, in order. *)
Definition invocations (tr : list event) : list event := filter is_invocation tr.

(** The [json.loads] attempts of a trace, in order. *)
Definition decode_attempts (tr : list event) : list event := filter is_decode tr.

(** The round trips that carried the clarification request. *)
Definition clarifications (tr : list event) : list event :=
  filter is_clarification tr.

(** The event writes [results[k]]. *)
Definition stores_key (k : string) (ev : event) : bool :=
  match ev with Stored k' _ => String.eqb k' k | _ => false end.

(** The entries the trace says were written, oldest first. *)
Definition recorded (tr : list event) : dict :=
  flat_map (fun ev => match ev with Stored k v => [(k, v)] | _ => [] end) tr.

(** ** The shape of a run

    The events one call of [invoke_agent] leaves: the round trip, after the
    log entry when the call was caught raising. *)
Inductive invoke_tr (a : Agent) (q : string)
  : option exn -> value -> list event -> Prop :=
| invoke_answered r :
    invoke_tr a q None r [Invoked a q None r]
| invoke_faulted e :
    invoke_tr a q (Some e) (VStr SENTINEL)
      [Logged "Error invoking agent." e; Invoked a q (Some e) (VStr SENTINEL)].

(** From the evaluator's lookup on: how the block ends, the entries it
    writes and the events it leaves. *)
Inductive evaluator_stage (cl : Client) (pa fa : value)
  : outcome unit -> dict -> list event -> Prop :=
| evaluator_lookup_fault e w w' :
    get_agent cl (agent_id "ClaimEvaluatorAgent") w = (inl e, w') ->
    evaluator_stage cl pa fa (Raised e) [] []
| evaluator_done d w w' fe ce tr :
    get_agent cl (agent_id "ClaimEvaluatorAgent") w = (inr d, w') ->
    invoke_tr (mkAgent cl d) (evaluator_query pa fa) fe ce tr ->
    evaluator_stage cl pa fa (Normal tt)
      [("ClaimEvaluatorAgent Output", ce)]
      (Wrote (nl ++ "Sending query to ClaimEvaluatorAgent:")
         :: tr ++ [Stored "ClaimEvaluatorAgent Output" ce]).

(** From the fraud field on. *)
Inductive fraud_stage (cl : Client) (pc pa : value)
  : outcome unit -> dict -> list event -> Prop :=
| fraud_field_fault e :
    fraud_field pc = inl e ->
    fraud_stage cl pc pa (Raised e) [] []
| fraud_lookup_fault desc e w w' :
    fraud_field pc = inr desc ->
    get_agent cl (agent_id "FraudDetectionAgent") w = (inl e, w') ->
    fraud_stage cl pc pa (Raised e) [] []
| fraud_done desc d w w' ff fa tr o entries tail :
    fraud_field pc = inr desc ->
    get_agent cl (agent_id "FraudDetectionAgent") w = (inr d, w') ->
    invoke_tr (mkAgent cl d) (fraud_query desc) ff fa tr ->
    evaluator_stage cl pa fa o entries tail ->
    fraud_stage cl pc pa o
      (("FraudDetectionAgent Output", fa) :: entries)
      (Wrote (nl ++ "Sending query to FraudDetectionAgent...")
         :: tr ++ Stored "FraudDetectionAgent Output" fa :: tail).

(** From the storing of the parsed claim on. *)
Inductive policy_stage (cl : Client) (pc : value)
  : outcome unit -> dict -> list event -> Prop :=
| policy_field_fault e :
    policy_fields pc = inl e ->
    policy_stage cl pc (Raised e) [("Parsed Claim", pc)] [Stored "Parsed Claim" pc]
| policy_lookup_fault f e w w' :
    policy_fields pc = inr f ->
    get_agent cl (agent_id "PolicyAssessorAgent") w = (inl e, w') ->
    policy_stage cl pc (Raised e) [("Parsed Claim", pc)] [Stored "Parsed Claim" pc]
| policy_done n t c d w w' fp pa tr o entries tail :
    policy_fields pc = inr (n, t, c) ->
    get_agent cl (agent_id "PolicyAssessorAgent") w = (inr d, w') ->
    invoke_tr (mkAgent cl d) (policy_query n t c) fp pa tr ->
    fraud_stage cl pc pa o entries tail ->
    policy_stage cl pc o
      (("Parsed Claim", pc) :: ("PolicyAssessorAgent Output", pa) :: entries)
      (Stored "Parsed Claim" pc
         :: Wrote (nl ++ "Sending query to PolicyAssessorAgent...")
         :: tr ++ Stored "PolicyAssessorAgent Output" pa :: tail).

(** From the first [json.loads] on, for the handler [a] and its output [r1]. *)
Inductive parse_stage (cl : Client) (a : Agent) (r1 : value)
  : outcome unit -> dict -> list event -> Prop :=
| parse_first pc o entries tail :
    json_loads (py_str r1) = inr pc ->
    policy_stage cl pc o entries tail ->
    parse_stage cl a r1 o entries (Decoded (py_str r1) :: tail)
| parse_first_fault e :
    json_loads (py_str r1) = inl e -> is_JSONDecodeError e = false ->
    parse_stage cl a r1 (Raised e) [] [Decoded (py_str r1)]
| parse_clarified e1 f2 r2 tr2 pc o entries tail :
    json_loads (py_str r1) = inl e1 -> is_JSONDecodeError e1 = true ->
    invoke_tr a clarification_query f2 r2 tr2 ->
    json_loads (py_str r2) = inr pc ->
    policy_stage cl pc o entries tail ->
    parse_stage cl a r1 o entries
      (Decoded (py_str r1)
         :: Logged "Failed to parse JSON output from ClaimHandlerAgent. Attempting clarification..." e1
         :: tr2 ++ Decoded (py_str r2) :: tail)
| parse_clarified_fault e1 f2 r2 tr2 e :
    json_loads (py_str r1) = inl e1 -> is_JSONDecodeError e1 = true ->
    invoke_tr a clarification_query f2 r2 tr2 ->
    json_loads (py_str r2) = inl e -> is_JSONDecodeError e = false ->
    parse_stage cl a r1 (Raised e) []
      (Decoded (py_str r1)
         :: Logged "Failed to parse JSON output from ClaimHandlerAgent. Attempting clarification..." e1
         :: tr2 ++ [Decoded (py_str r2)])
| parse_fatal e1 f2 r2 tr2 e2 :
    json_loads (py_str r1) = inl e1 -> is_JSONDecodeError e1 = true ->
    invoke_tr a clarification_query f2 r2 tr2 ->
    json_loads (py_str r2) = inl e2 -> is_JSONDecodeError e2 = true ->
    parse_stage cl a r1 Returned [("error", VStr FATAL_PARSE)]
      (Decoded (py_str r1)
         :: Logged "Failed to parse JSON output from ClaimHandlerAgent. Attempting clarification..." e1
         :: tr2 ++ [Decoded (py_str r2);
                    Logged "Clarification attempt failed, stop process." e2;
                    Stored "error" (VStr FATAL_PARSE)]).

(** The whole [try] body on the query [q]: outcome, [results], trace. *)
Inductive body_shape (q : string) : outcome unit -> dict -> list event -> Prop :=
| body_credential_fault e w w' :
    open_credential w = (inl e, w') ->
    body_shape q (Raised e) [] []
| body_client_fault creds e w w' :
    create_client creds PROJECT_CONNECTION_STRING w = (inl e, w') ->
    body_shape q (Raised e) [] []
| body_handler_lookup_fault cl e w w' :
    get_agent cl (agent_id "ClaimHandlerAgent") w = (inl e, w') ->
    body_shape q (Raised e) [] []
| body_handler cl d w w' f1 r1 tr1 o entries tail :
    get_agent cl (agent_id "ClaimHandlerAgent") w = (inr d, w') ->
    invoke_tr (mkAgent cl d) (q ++ JSON_FORMAT) f1 r1 tr1 ->
    parse_stage cl (mkAgent cl d) r1 o entries tail ->
    body_shape q o
      (("ClaimHandlerAgent Output", r1) :: entries)
      (tr1 ++ Stored "ClaimHandlerAgent Output" r1 :: tail).

(** What the outer [except Exception] makes of the way the body ended. *)
Definition abort_tail (e : exn) : list event :=
  [Logged "An unexpected error occurred ." e; Stored "error" (VStr (exn_msg e))].

Definition final_outcome (o : outcome unit) : outcome unit :=
  match o with Raised _ => Normal tt | _ => o end.

Definition final_results (o : outcome unit) (entries : dict) : dict :=
  match o with
  | Raised e => dict_set entries "error" (VStr (exn_msg e))
  | _ => entries
  end.

Definition final_trace (o : outcome unit) (tr : list event) : list event :=
  match o with Raised e => tr ++ abort_tail e | _ => tr end.

(** ** Conditions on the platform and on the parsed claim *)

(** Every lookup of an agent definition succeeds. *)
Definition lookups_succeed : Prop :=
  forall cl id w, exists d w', get_agent cl id w = (inr d, w').

(** The lookup of the agent called [name] succeeds, whenever it is made. *)
Definition lookup_succeeds (name : string) : Prop :=
  forall cl w, exists d w', get_agent cl (agent_id name) w = (inr d, w').

(** Each round trip in [tr] is at once followed by the storing of its
    response or, for the clarification round trip, by the decoding of its
    response. *)
Fixpoint stored_at_once (tr : list event) : Prop :=
  match tr with
  | Invoked a q f r :: rest =>
      ((exists k rest', rest = Stored k r :: rest')
       \/ (q = clarification_query
           /\ exists rest', rest = Decoded (py_str r) :: rest'))
      /\ stored_at_once rest
  | _ :: rest => stored_at_once rest
  | [] => True
  end.

(** Two states that show the same [results] and the same trace. *)
Definition same_view (s s' : state) : Prop :=
  st_results s = st_results s' /\ st_trace s = st_trace s'.

(** [m] ends the same way and leaves the same view whatever state the
    services are in. *)
Definition world_blind {A} (m : M A) : Prop :=
  forall s s',
    same_view s s' ->
    fst (m s) = fst (m s') /\ same_view (snd (m s)) (snd (m s')).

(** What the services answer does not depend on the state they are in. *)
Definition deterministic_services : Prop :=
  (forall w w', fst (open_credential w) = fst (open_credential w'))
  /\ (forall c cs w w', fst (create_client c cs w) = fst (create_client c cs w'))
  /\ (forall cl id w w', fst (get_agent cl id w) = fst (get_agent cl id w'))
  /\ (forall cl d q w w',
        fst (get_response cl d q w) = fst (get_response cl d q w')).

(** The section [k] of the parsed claim is absent or is an object. *)
Definition section_ok (pc : value) (k : string) : bool :=
  match pc with
  | VDict d =>
      match dict_get d k with
      | None | Some (VDict _) => true
      | Some _ => false
      end
  | _ => false
  end.

(** The parsed claim is an object whose two sections, where present, are
    objects. *)
Definition well_shaped (pc : value) : bool :=
  section_ok pc "policy_assessor" && section_ok pc "fraud_detector".

(** The first value on which lines 126 to 146 call [.get] although it is
    not an object: the parsed claim itself, its policy_assessor entry, or
    its fraud_detector entry; none for a well-shaped claim. *)
Definition first_non_object (pc : value) : option value :=
  match pc with
  | VDict d =>
      match dict_get d "policy_assessor" with
      | None | Some (VDict _) =>
          match dict_get d "fraud_detector" with
          | None | Some (VDict _) => None
          | Some v => Some v
          end
      | Some v => Some v
      end
  | _ => Some pc
  end.

(** The field [k] of the section [sec], [None] when either is absent. *)
Definition field (pc : value) (sec k : string) : value :=
  match pc with
  | VDict d =>
      match dict_get d sec with
      | Some (VDict d') =>
          match dict_get d' k with Some v => v | None => VNone end
      | _ => VNone
      end
  | _ => VNone
  end.

End Pipeline.

Arguments Normal {A} a.
Arguments Raised {A} e.
Arguments Returned {A}.

(** ** The page: the configuration guard and the script after the functions *)

Section Page.

Context {P : Platform}.

(** What the script hands to Streamlit and to the root logger, in order.
    [CodeBlock] keeps the object given to [st.code]; [DownloadButton] keeps
    the object given to [json.dumps] and the indent, the serializer itself
    is not modelled.  What [st.write] shows from inside the run is in the
    trace of the run. *)
#[warnings="-register-all"]
Inductive output : Type :=
| LogError (msg : string)            (** [logging.error(msg)] *)
| Title (text : string)
| Text (text : string)               (** [st.write(text)] *)
| TextArea (label value : string) (height : Z)
| Button (label : string)
| Spinner (text : string)
| ErrorBox (text : string)
| SuccessBox (text : string)
| Header (text divider : string)
| Subheader (text : string)
| CodeBlock (body : value)
| DownloadButton (label : string) (dumped : value) (indent : Z)
    (file_name mime : string)
| Expander (label : string) (children : list output)
| JsonView (d : dict).

(** How the script ends: at its last line, at [st.stop()], or on the
    TypeError of a [str + object]. *)
Inductive script_end : Type :=
| Finished
| Stopped
| Crashed (msg : string).

Record page : Type := mkPage {
  shown : list output;
  ending : script_end;
  services_after : World;
  trace_of_run : list event
}.

(** Truth value of what [os.environ.get] returns. *)
Definition truthy (v : option string) : bool :=
  match v with
  | Some (String _ _) => true
  | Some EmptyString | None => false
  end.

(** Line 64.  The connection string of the platform is the empty string
    when the variable is unset; [None] and the empty string are both
    false. *)
Definition configured (MODEL_DEPLOYMENT_NAME : option string) : bool :=
  truthy (Some PROJECT_CONNECTION_STRING)
  && truthy MODEL_DEPLOYMENT_NAME
  && match AGENTS_AND_QUERIES with [] => false | _ :: _ => true end.

(** [d.get(key, default)] on [results]. *)
Definition results_get (results : dict) (key : string) (default : value) : value :=
  match dict_get results key with Some v => v | None => default end.

(** [text + v] for a [str] on the left. *)
Definition str_concat (text : string) (v : value) : string + string :=
  match v with
  | VStr t => inr (text ++ t)
  | _ =>
      inl ("can only concatenate str (not " ++ dq ++ type_name v ++ dq
             ++ ") to str")
  end.

(** Lines 190 to 213: what is rendered from [results]. *)
Definition results_view (results : dict) : list output * script_end :=
  match dict_get results "error" with
  | Some err =>
      match str_concat "An error occurred: " err with
      | inr text => ([ErrorBox text], Finished)
      | inl msg => ([], Crashed msg)
      end
  | None =>
      let parsed_claim := results_get results "Parsed Claim" (VDict []) in
      ([SuccessBox "Processing complete!";
        Header "Summary" "gray";
        Subheader "Policy Agent Output";
        CodeBlock (results_get results "PolicyAssessorAgent Output"
                     (VStr "No output"));
        Subheader "Fraud Detection Agent Output";
        CodeBlock (results_get results "FraudDetectionAgent Output"
                     (VStr "No output"));
        Subheader "Claim Evaluation";
        CodeBlock (results_get results "ClaimEvaluatorAgent Output"
                     (VStr "No output"));
        DownloadButton "Download Claim (JSON)" parsed_claim 2
          "parsed_claim.json" "application/json";
        Expander "Show detailed logs" [JsonView results]],
       Finished)
  end.

(** Lines 180 to 186: what is shown before the button is looked at. *)
Definition page_head : list output :=
  [Title "Insurance claim dashboard";
   Text "Enter your claim query below and click the button to process the claim using Azure AI Agents.";
   TextArea "Query:" CLAIM_QUERY 150;
   Button "Process Claim"].

(** One execution of the script: [user_claim_query] is the text in the
    text area, [clicked] what [st.button] returns, [w] the state of the
    services. *)
Definition app_script (MODEL_DEPLOYMENT_NAME : option string)
    (user_claim_query : string) (clicked : bool) (w : World) : page :=
  if negb (configured MODEL_DEPLOYMENT_NAME) then
    mkPage [LogError "Missing required configuration.";
            ErrorBox "Missing required configuration."]
      Stopped w []
  else if clicked then
    let r := run user_claim_query w in
    let '(view, e) := results_view (st_results (snd r)) in
    mkPage (page_head ++ Spinner "Processing the claim..." :: view) e
      (st_world (snd r)) (st_trace (snd r))
  else mkPage page_head Finished w [].

(** The labels of a complete result, in the order they are written. *)
Definition LABELS : list string :=
  ["ClaimHandlerAgent Output"; "Parsed Claim"; "PolicyAssessorAgent Output";
   "FraudDetectionAgent Output"; "ClaimEvaluatorAgent Output"].

End Page.


(** ** Stub platforms *)

Module Stub.

Definition timeout : exn := mkExn (ServiceError "TimeoutError") "agent timed out".

(** The world is the script of what the agent service will answer, call
    after call; when the script is over the service times out.  The other
    services always succeed. *)
Definition scripted : Platform := {|
  World := list (exn + value);
  Cred := unit;
  Client := unit;
  AgentDef := string;
  PROJECT_CONNECTION_STRING := "stub";
  open_credential := fun w => (inr tt, w);
  close_credential := fun _ w => w;
  create_client := fun _ _ w => (inr tt, w);
  close_client := fun _ w => w;
  get_agent := fun _ id w => (inr id, w);
  get_response := fun _ _ _ w =>
    match w with
    | [] => (inl timeout, [])
    | answer :: script => (answer, script)
    end;
  py_repr := fun _ => "<repr>";
  RECURSION_HEADROOM := 991;
  INT_MAX_STR_DIGITS := 4300
|}.

(** A deterministic agent stub: the answer is a function of the agent and
    of nothing else; the world only counts the calls. *)
Definition fixed (handler_text : string) : Platform := {|
  World := nat;
  Cred := unit;
  Client := unit;
  AgentDef := string;
  PROJECT_CONNECTION_STRING := "stub";
  open_credential := fun w => (inr tt, w);
  close_credential := fun _ w => w;
  create_client := fun _ _ w => (inr tt, w);
  close_client := fun _ w => w;
  get_agent := fun _ id w => (inr id, w);
  get_response := fun _ d _ w =>
    (inr (VStr (if String.eqb d "asst_8WPO5fEmxYN96N2yAoIjbrDb"
                then handler_text else "reply of " ++ d)),
     S w);
  py_repr := fun _ => "<repr>";
  RECURSION_HEADROOM := 991;
  INT_MAX_STR_DIGITS := 4300
|}.

(** A script, as a state of the scripted platform. *)
Definition script (answers : list (exn + value)) : @World scripted := answers.

(** The four agents of a run on the scripted platform. *)
Definition handler : @Agent scripted :=
  @mkAgent scripted tt (agent_id "ClaimHandlerAgent").
Definition policy : @Agent scripted :=
  @mkAgent scripted tt (agent_id "PolicyAssessorAgent").
Definition fraud : @Agent scripted :=
  @mkAgent scripted tt (agent_id "FraudDetectionAgent").
Definition evaluator : @Agent scripted :=
  @mkAgent scripted tt (agent_id "ClaimEvaluatorAgent").

Definition jq (s : string) : string := dq ++ s ++ dq.

(** The handler answer of the end-to-end scenario. *)
Definition claim_text : string :=
  "{" ++ jq "policy_assessor" ++ ":{" ++ jq "policy_number" ++ ":" ++ jq "2"
  ++ "," ++ jq "claim_type" ++ ":" ++ jq "B"
  ++ "," ++ jq "damage_claim" ++ ":" ++ jq "4000" ++ "},"
  ++ jq "fraud_detector" ++ ":{" ++ jq "claim_description" ++ ":"
  ++ jq "rear-ended, bumper replacement" ++ "}}".

(** What [claim_text] decodes to. *)
Definition claim_value : value :=
  VDict
    [("policy_assessor",
      VDict [("policy_number", VStr "2"); ("claim_type", VStr "B");
             ("damage_claim", VStr "4000")]);
     ("fraud_detector",
      VDict [("claim_description", VStr "rear-ended, bumper replacement")])].

(** A handler answer whose fraud section is a number. *)
Definition bad_fraud_text : string :=
  "{" ++ jq "fraud_detector" ++ ": 3}".

(** A handler answer whose policy section is null. *)
Definition null_policy_text : string :=
  "{" ++ jq "policy_assessor" ++ ": null, " ++ jq "fraud_detector" ++ ": {}}".

(** [n] copies of [s] in a row. *)
Fixpoint copies (n : nat) (s : string) : string :=
  match n with
  | O => ""
  | S n => s ++ copies n s
  end.

(** 2000 opening brackets: no JSON, and too deep to be scanned to the
    point where that shows. *)
Definition deep_open_text : string := copies 2000 "[".

(** An array in an array, 1000 times over: valid JSON, nested too deep. *)
Definition deep_array_text : string := copies 1000 "[" ++ copies 1000 "]".

(** The integer 10 ^ 4300, a literal of 4301 digits: valid JSON, longer
    than [int] converts. *)
Definition long_integer_text : string := "1" ++ copies 4300 "0".

(** The scripted platform on which the service does not know the agent
    called [missing]: its lookup raises. *)
Definition not_found : exn :=
  mkExn (ServiceError "ResourceNotFoundError") "No assistant found".

Definition unlisted (missing : string) : Platform := {|
  World := list (exn + value);
  Cred := unit;
  Client := unit;
  AgentDef := string;
  PROJECT_CONNECTION_STRING := "stub";
  open_credential := fun w => (inr tt, w);
  close_credential := fun _ w => w;
  create_client := fun _ _ w => (inr tt, w);
  close_client := fun _ w => w;
  get_agent := fun _ id w =>
    if String.eqb id (agent_id missing) then (inl not_found, w)
    else (inr id, w);
  get_response := fun _ _ _ w =>
    match w with
    | [] => (inl timeout, [])
    | answer :: script => (answer, script)
    end;
  py_repr := fun _ => "<repr>";
  RECURSION_HEADROOM := 991;
  INT_MAX_STR_DIGITS := 4300
|}.

(** A platform that keeps a journal of what is asked of the identity and
    client services, oldest first, and on which the operation named by
    [failing] raises; every agent answers with an empty JSON object. *)
Definition outage : exn :=
  mkExn (ServiceError "ClientAuthenticationError") "no credential available".

Definition journaled (failing : string) : Platform := {|
  World := list string;
  Cred := unit;
  Client := unit;
  AgentDef := string;
  PROJECT_CONNECTION_STRING := "stub";
  open_credential := fun w =>
    if String.eqb failing "credential"
    then (inl outage, (w ++ ["credential refused"])%list)
    else (inr tt, (w ++ ["credential opened"])%list);
  close_credential := fun _ w => (w ++ ["credential closed"])%list;
  create_client := fun _ _ w =>
    if String.eqb failing "client"
    then (inl outage, (w ++ ["client refused"])%list)
    else (inr tt, (w ++ ["client opened"])%list);
  close_client := fun _ w => (w ++ ["client closed"])%list;
  get_agent := fun _ id w => (inr id, w);
  get_response := fun _ _ _ w => (inr (VStr "{}"), w);
  py_repr := fun _ => "<repr>";
  RECURSION_HEADROOM := 991;
  INT_MAX_STR_DIGITS := 4300
|}.

(** A journal, as a state of the journaled platform. *)
Definition journal (failing : string) (entries : list string)
  : @World (journaled failing) := entries.

End Stub.

(** * Properties of the pipeline *)

Section Facts.

Context {P : Platform}.

Local Open Scope list_scope.

(** ** Strings *)

Lemma length_append (s1 s2 : string) :
  String.length (s1 ++ s2)%string = String.length s1 + String.length s2.
Proof. induction s1 as [| c s1 IH]; simpl; [reflexivity | now rewrite IH]. Qed.

Lemma handler_query_not_clarification (q : string) :
  (q ++ JSON_FORMAT)%string <> clarification_query.
Proof.
  intros H. apply (f_equal String.length) in H.
  rewrite length_append in H.
  change (String.length JSON_FORMAT) with 279 in H.
  change (String.length clarification_query) with 124 in H. lia.
Qed.

Lemma policy_query_not_clarification (n t c : value) :
  policy_query n t c <> clarification_query.
Proof. unfold policy_query, clarification_query. simpl. discriminate. Qed.

Lemma fraud_query_not_clarification (d : value) :
  fraud_query d <> clarification_query.
Proof. unfold fraud_query, clarification_query. simpl. discriminate. Qed.

Lemma evaluator_query_not_clarification (pa fa : value) :
  evaluator_query pa fa <> clarification_query.
Proof. unfold evaluator_query, clarification_query. simpl. discriminate. Qed.

(** The sentinel is not JSON. *)
Lemma sentinel_not_json :
  json_loads (py_str (VStr SENTINEL)) = inl expecting_value.
Proof. reflexivity. Qed.

(** ** The decoder and the limits of the interpreter

    Under limits the decoder gives what it gives without them, unless it
    stops on a RecursionError or on the ValueError of an over-long
    integer. *)

Lemma int_too_long_0 n : int_too_long 0 n = false.
Proof. unfold int_too_long. cbn. now rewrite andb_false_r. Qed.

Lemma match_number_agree m s :
  match_number m s = match_number 0 s
  \/ exists e, match_number m s = Some (inl e) /\ limit_fault e = true.
Proof.
  unfold match_number.
  destruct (match s with
            | String c r => if (c =? "-")%char then (true, r) else (false, s)
            | EmptyString => (false, s)
            end) as [neg s1].
  destruct (match_int s1) as [[ip s2] |]; [| now left].
  destruct (match_frac s2) as [fp s3]. destruct (match_exp s3) as [ep s4].
  destruct fp; [| now left]. destruct ep; [| now left].
  rewrite int_too_long_0.
  destruct (int_too_long m (String.length ip)); [| now left].
  right. eexists. split; reflexivity.
Qed.

Lemma raise_errmsg_agree d e :
  @inl exn (value * string) (raise_errmsg (Some d) e) = inl (raise_errmsg None e)
  \/ exists e', @inl exn (value * string) (raise_errmsg (Some d) e) = inl e'
                /\ limit_fault e' = true.
Proof.
  destruct d as [| [| [| d]]]; cbn [raise_errmsg];
    [right; eexists; split; reflexivity .. | now left].
Qed.

Lemma parse_constant_agree d lit rest :
  parse_constant (Some d) lit rest = parse_constant None lit rest
  \/ exists e, parse_constant (Some d) lit rest = inl e /\ limit_fault e = true.
Proof.
  destruct d; cbn [parse_constant];
    [right; eexists; split; reflexivity | now left].
Qed.

Lemma scan_atom_agree m d s :
  scan_atom m (Some d) s = scan_atom 0 None s
  \/ exists e, scan_atom m (Some d) s = inl e /\ limit_fault e = true.
Proof.
  unfold scan_atom.
  destruct (strip_prefix "null" s); [now left |].
  destruct (strip_prefix "true" s); [now left |].
  destruct (strip_prefix "false" s); [now left |].
  destruct (match_number_agree m s) as [-> | (e & -> & He)];
    [| right; eauto].
  destruct (match_number 0 s); [now left |].
  destruct (strip_prefix "NaN" s); [apply parse_constant_agree |].
  destruct (strip_prefix "Infinity" s); [apply parse_constant_agree |].
  destruct (strip_prefix "-Infinity" s); [apply parse_constant_agree |].
  now left.
Qed.

Lemma scan_agree m fuel :
  (forall d s,
      scan_once m fuel (Some d) s = scan_once 0 fuel None s
      \/ exists e, scan_once m fuel (Some d) s = inl e /\ limit_fault e = true)
  /\ (forall d values s,
        JSONArray m fuel (Some d) values s = JSONArray 0 fuel None values s
        \/ exists e, JSONArray m fuel (Some d) values s = inl e
                     /\ limit_fault e = true)
  /\ (forall d pairs s,
        JSONObject m fuel (Some d) pairs s = JSONObject 0 fuel None pairs s
        \/ exists e, JSONObject m fuel (Some d) pairs s = inl e
                     /\ limit_fault e = true).
Proof.
  induction fuel as [| fuel (IHs & IHa & IHo)];
    [repeat split; intros; now left |].
  repeat split.
  - intros d s. cbn [scan_once].
    destruct s as [| c r]; [now left |].
    destruct (c =? dquote)%char.
    { destruct (scanstring (String.length r) r) as [e | [str rest]];
        [apply raise_errmsg_agree | now left]. }
    destruct (c =? "{")%char.
    { destruct d as [| d]; cbn [enter]; [right; eexists; split; reflexivity |].
      destruct (skip_ws r) as [| c' r']; [apply raise_errmsg_agree |].
      destruct (c' =? "}")%char; [now left |].
      destruct (c' =? dquote)%char; [apply IHo | apply raise_errmsg_agree]. }
    destruct (c =? "[")%char.
    { destruct d as [| d]; cbn [enter]; [right; eexists; split; reflexivity |].
      destruct (skip_ws r) as [| c' r']; [apply IHa |].
      destruct (c' =? "]")%char; [now left | apply IHa]. }
    apply scan_atom_agree.
  - intros d values s. cbn [JSONArray].
    destruct (IHs d s) as [-> | (e & -> & He)]; [| right; eauto].
    destruct (scan_once 0 fuel None s) as [e | [v rest]]; [now left |].
    destruct (skip_ws rest) as [| c r]; [apply raise_errmsg_agree |].
    destruct (c =? "]")%char; [now left |].
    destruct (c =? ",")%char; [apply IHa | apply raise_errmsg_agree].
  - intros d pairs s. cbn [JSONObject].
    destruct (scanstring (String.length s) s) as [e | [key rest]];
      [apply raise_errmsg_agree |].
    destruct (skip_ws rest) as [| c r]; [apply raise_errmsg_agree |].
    destruct (c =? ":")%char; [| apply raise_errmsg_agree].
    destruct (IHs d (skip_ws r)) as [-> | (e & -> & He)]; [| right; eauto].
    destruct (scan_once 0 fuel None (skip_ws r)) as [e | [v rest']];
      [now left |].
    destruct (skip_ws rest') as [| c' r']; [apply raise_errmsg_agree |].
    destruct (c' =? "}")%char; [now left |].
    destruct (c' =? ",")%char; [| apply raise_errmsg_agree].
    destruct (skip_ws r') as [| c2 r2]; [apply raise_errmsg_agree |].
    destruct (c2 =? dquote)%char; [apply IHo | apply raise_errmsg_agree].
Qed.

Lemma json_decode_agree d m s :
  json_decode (Some d) m s = json_decode None 0 s
  \/ exists e, json_decode (Some d) m s = inl e /\ limit_fault e = true.
Proof.
  unfold json_decode.
  destruct (strip_prefix BOM s); [now left |].
  destruct (proj1 (scan_agree m (2 * String.length s + 2)) d (skip_ws s))
    as [-> | (e & -> & He)]; [now left | right; eauto].
Qed.

(** A valid JSON text that reaches no limit decodes to the value it
    denotes. *)
Lemma valid_within_limits_decodes text :
  valid_json text = true -> within_limits text = true ->
  exists pc, json_decode None 0 text = inr pc /\ json_loads text = inr pc.
Proof.
  unfold valid_json, within_limits, json_loads. intros V W.
  destruct (json_decode_agree (3 + RECURSION_HEADROOM) INT_MAX_STR_DIGITS text)
    as [E | (e & E & He)].
  - rewrite E. destruct (json_decode None 0 text); [discriminate | eauto].
  - rewrite E, He in W. discriminate.
Qed.

(** ** One call of invoke_agent *)

Lemma invoke_agent_spec (a : Agent) (q : string) (s : state) :
  exists f r w' tr,
    invoke_agent a q s
      = (Normal r, mkState w' (st_results s) (st_trace s ++ tr))
    /\ invoke_tr a q f r tr.
Proof.
  unfold invoke_agent, bind, try_except, call, logging_exception, emit, ret, lift.
  destruct (get_response _ _ _ _) as [[e | v] w']; cbn.
  - exists (Some e), (VStr SENTINEL), w'. eexists.
    rewrite <- app_assoc. split; [reflexivity | constructor].
  - assert (Hplain : forall r, exists f r0 w0 tr,
        (Normal r, mkState w' (st_results s) (st_trace s ++ [Invoked a q None r]))
        = (Normal r0, mkState w0 (st_results s) (st_trace s ++ tr))
        /\ invoke_tr a q f r0 tr).
    { intros r. exists None, r, w'. eexists. split; [reflexivity | constructor]. }
    destruct v; cbn; try apply Hplain.
    destruct l as [| x l]; cbn; [| apply Hplain].
    eexists (Some _), (VStr SENTINEL), w'. eexists. rewrite <- app_assoc.
    split; [reflexivity | constructor].
Qed.

(** ** Reading the events of one call *)

Lemma invoke_tr_invocations a q f r tr :
  invoke_tr a q f r tr -> filter is_invocation tr = [Invoked a q f r].
Proof. now destruct 1. Qed.

Lemma invoke_tr_decodes a q f r tr :
  invoke_tr a q f r tr -> filter is_decode tr = [].
Proof. now destruct 1. Qed.

Lemma invoke_tr_recorded a q f r tr : invoke_tr a q f r tr -> recorded tr = [].
Proof. now destruct 1. Qed.

Lemma invoke_tr_clarification a f r tr :
  invoke_tr a clarification_query f r tr ->
  filter is_clarification tr = [Invoked a clarification_query f r].
Proof.
  intros H. inversion H; subst; cbn [filter is_clarification];
    now rewrite String.eqb_refl.
Qed.

Lemma invoke_tr_other a q f r tr :
  q <> clarification_query -> invoke_tr a q f r tr ->
  filter is_clarification tr = [].
Proof.
  intros Hq. apply String.eqb_neq in Hq.
  destruct 1; cbn [filter is_clarification]; now rewrite Hq.
Qed.

(** A faulted round trip hands back the sentinel. *)
Lemma invoke_tr_fault a q e r tr :
  invoke_tr a q (Some e) r tr -> r = VStr SENTINEL.
Proof. now inversion 1. Qed.

(** ** The shape of every run *)

Ltac exec_simpl :=
  cbv beta iota zeta delta
    [run process_claim_run_agents run_trace run_world try_body run_stages
     async_with try_except bind call lift ret emit set_result logging_exception
     st_write json_loads_m return_results is_Exception
     st_world st_results st_trace fst snd
     dict_set String.eqb Ascii.eqb Bool.eqb].

Ltac exec_step :=
  match goal with
  | |- context [invoke_agent ?a ?q ?s] =>
      let E := fresh "E" in let I := fresh "Hinv" in
      destruct (invoke_agent_spec a q s) as (?f & ?r & ?w & ?tr & E & I);
      rewrite E; clear E
  | |- context [open_credential ?w] =>
      let E := fresh "Eopen" in
      destruct (open_credential w) as [[?e | ?creds] ?w] eqn:E
  | |- context [create_client ?c ?cs ?w] =>
      let E := fresh "Eclient" in
      destruct (create_client c cs w) as [[?e | ?client] ?w] eqn:E
  | |- context [get_agent ?c ?i ?w] =>
      let E := fresh "Eagent" in
      destruct (get_agent c i w) as [[?e | ?def] ?w] eqn:E
  | |- context [match json_loads ?t with _ => _ end] =>
      let E := fresh "Eloads" in destruct (json_loads t) as [?e | ?pc] eqn:E
  | |- context [match policy_fields ?v with _ => _ end] =>
      let E := fresh "Efields" in
      destruct (policy_fields v) as [?e | [[?n ?t] ?c]] eqn:E
  | |- context [match fraud_field ?v with _ => _ end] =>
      let E := fresh "Efield" in destruct (fraud_field v) as [?e | ?desc] eqn:E
  | |- context [if is_JSONDecodeError ?e then _ else _] =>
      let E := fresh "Ecls" in destruct (is_JSONDecodeError e) eqn:E
  end.

Ltac exec := exec_simpl; repeat (exec_step; exec_simpl).

Ltac stages := repeat (econstructor; eauto).

Lemma try_body_shape (q : string) (w : World) :
  body_shape q (fst (try_body q (mkState w [] [])))
    (st_results (snd (try_body q (mkState w [] []))))
    (st_trace (snd (try_body q (mkState w [] [])))).
Proof.
  exec.
  all: rewrite <- ?app_assoc; cbn [app].
  all: try solve [econstructor; eauto].
  all: eapply body_handler; eauto.
  all: try solve [econstructor; eauto].
  all: try solve [eapply parse_first; eauto; stages].
  all: solve [eapply parse_clarified; eauto; stages].
Qed.

(** [run] adds the work of the outer handler to what the body did. *)
Lemma run_of_body (q : string) (w : World) :
  let b := try_body q (mkState w [] []) in
  fst (run q w) = final_outcome (fst b)
  /\ process_claim_run_agents q w = final_results (fst b) (st_results (snd b))
  /\ run_trace q w = final_trace (fst b) (st_trace (snd b)).
Proof.
  unfold process_claim_run_agents, run_trace, run, try_except.
  destruct (try_body q (mkState w [] [])) as [[[] | e |] s]; cbn;
    rewrite <- ?app_assoc; auto.
Qed.

Lemma run_shape (q : string) (w : World) :
  exists o entries tr,
    body_shape q o entries tr
    /\ fst (try_body q (mkState w [] [])) = o
    /\ st_results (snd (try_body q (mkState w [] []))) = entries
    /\ fst (run q w) = final_outcome o
    /\ process_claim_run_agents q w = final_results o entries
    /\ run_trace q w = final_trace o tr.
Proof.
  destruct (run_of_body q w) as (Ho & Hr & Ht).
  eexists _, _, _. split; [apply try_body_shape |]. auto.
Qed.

(** ** What the outer handler adds is neither a round trip nor a decoding *)

Lemma invocations_final o tr :
  filter is_invocation (final_trace o tr) = filter is_invocation tr.
Proof.
  destruct o; cbn; rewrite ?filter_app; cbn; rewrite ?app_nil_r; reflexivity.
Qed.

Lemma decodes_final o tr :
  filter is_decode (final_trace o tr) = filter is_decode tr.
Proof.
  destruct o; cbn; rewrite ?filter_app; cbn; rewrite ?app_nil_r; reflexivity.
Qed.

Lemma clarifications_final o tr :
  filter is_clarification (final_trace o tr) = filter is_clarification tr.
Proof.
  destruct o; cbn; rewrite ?filter_app; cbn; rewrite ?app_nil_r; reflexivity.
Qed.

(** ** Dictionaries *)

Lemma dict_set_fresh (d : dict) (k : string) (v : value) :
  dict_get d k = None -> dict_set d k v = d ++ [(k, v)].
Proof.
  induction d as [| [k' v'] d IH]; cbn; [reflexivity |].
  destruct (String.eqb k' k); [discriminate |].
  intros H. now rewrite IH.
Qed.

Lemma dict_get_app_old (d d' : dict) (k : string) (v : value) :
  dict_get d k = Some v -> dict_get (d ++ d') k = Some v.
Proof.
  induction d as [| [k' v'] d IH]; cbn; [discriminate |].
  destruct (String.eqb k' k); auto.
Qed.

Lemma dict_get_set_other (d : dict) (k k' : string) (v : value) :
  k' <> k -> dict_get (dict_set d k' v) k = dict_get d k.
Proof.
  intros Hk. apply String.eqb_neq in Hk.
  induction d as [| [k0 v0] d IH]; cbn.
  - now rewrite Hk.
  - destruct (String.eqb k0 k') eqn:E0; cbn.
    + apply String.eqb_eq in E0. subst k0. now rewrite Hk.
    + destruct (String.eqb k0 k); auto.
Qed.

Lemma dict_get_set_same (d : dict) (k : string) (v : value) :
  dict_get (dict_set d k v) k = Some v.
Proof.
  induction d as [| [k0 v0] d IH]; cbn.
  - now rewrite String.eqb_refl.
  - destruct (String.eqb k0 k) eqn:E0; cbn; now rewrite E0.
Qed.

Lemma dict_get_final o entries k :
  k <> "error" -> dict_get (final_results o entries) k = dict_get entries k.
Proof.
  intros Hk. destruct o; cbn; auto. apply dict_get_set_other. congruence.
Qed.

(** ** Tactics to read a trace *)

Create HintDb queries.
#[local] Hint Resolve handler_query_not_clarification
  policy_query_not_clarification fraud_query_not_clarification
  evaluator_query_not_clarification : queries.

(** Brings in what each [invoke_tr] hypothesis says about its events. *)
Ltac invoke_facts :=
  repeat match goal with
  | H : invoke_tr ?a ?q ?f ?r ?tr |- _ =>
      lazymatch goal with
      | _ : filter is_invocation tr = _ |- _ => fail
      | _ => idtac
      end;
      pose proof (invoke_tr_invocations _ _ _ _ _ H);
      pose proof (invoke_tr_decodes _ _ _ _ _ H);
      pose proof (invoke_tr_recorded _ _ _ _ _ H);
      first [ pose proof (invoke_tr_clarification _ _ _ _ H)
            | pose proof (invoke_tr_other a q f r tr
                            ltac:(auto with queries) H)
            | idtac ]
  end.

Ltac use_filters :=
  repeat match goal with
  | E : filter ?f ?tr = _ |- context [filter ?f ?tr] => rewrite E
  | E : filter ?f ?tr = _, H : context [filter ?f ?tr] |- _ =>
      lazymatch type of H with
      | filter f tr = _ => fail
      | _ => rewrite E in H
      end
  | E : flat_map ?f ?tr = _ |- context [flat_map ?f ?tr] => rewrite E
  | E : flat_map ?f ?tr = _, H : context [flat_map ?f ?tr] |- _ =>
      lazymatch type of H with
      | flat_map f tr = _ => fail
      | _ => rewrite E in H
      end
  end.

Ltac read_step :=
  repeat (progress
    (rewrite ?filter_app, ?flat_map_app in *;
     cbn [filter flat_map is_invocation is_decode is_clarification app length]
       in *)).

(** Pushes the trace readers through appends and known events. *)
Ltac read_trace :=
  unfold invocations, decode_attempts, clarifications in *;
  rewrite ?invocations_final, ?decodes_final, ?clarifications_final in *;
  invoke_facts;
  unfold recorded in *;
  read_step; repeat (progress use_filters; read_step).

(** ** Facts on the stages *)

Lemma recorded_app tr tr' : recorded (tr ++ tr') = recorded tr ++ recorded tr'.
Proof. apply flat_map_app. Qed.

Lemma stored_at_once_app tr tr' :
  stored_at_once tr -> stored_at_once tr' -> stored_at_once (tr ++ tr').
Proof.
  induction tr as [| ev tr IH]; cbn; [auto |].
  destruct ev; auto.
  intros [[(k & rest' & ->) | (Hq & rest' & ->)] Hrest] H'; split; auto.
  - left. cbn. eauto.
  - right. cbn. eauto.
Qed.

Lemma stored_at_once_invoke a q f r tr k rest :
  invoke_tr a q f r tr -> stored_at_once rest ->
  stored_at_once (tr ++ Stored k r :: rest).
Proof. destruct 1; cbn; eauto 6. Qed.

Lemma stored_at_once_clarification a f r tr rest :
  invoke_tr a clarification_query f r tr -> stored_at_once rest ->
  stored_at_once (tr ++ Decoded (py_str r) :: rest).
Proof. intros H; inversion H; subst; cbn; eauto 7. Qed.

(** Walks a trace made of known events and of [invoke_tr] segments. *)
Ltac at_once :=
  repeat (cbn [stored_at_once app];
          first [ exact I
                | assumption
                | eapply stored_at_once_invoke; [eassumption |]
                | eapply stored_at_once_clarification; [eassumption |] ]).

Ltac stage_solve :=
  read_trace;
  cbn [app length dict_get String.eqb Ascii.eqb Bool.eqb];
  repeat split;
  try solve [ discriminate | reflexivity | lia | congruence | at_once ].

Lemma evaluator_stage_facts cl pa fa o entries tail :
  evaluator_stage cl pa fa o entries tail ->
  o <> Returned
  /\ filter is_decode tail = []
  /\ filter is_clarification tail = []
  /\ length (filter is_invocation tail) <= 1
  /\ recorded tail = entries
  /\ stored_at_once tail
  /\ dict_get entries "error" = None
  /\ dict_get entries "ClaimHandlerAgent Output" = None.
Proof.
  destruct 1; stage_solve.
Qed.

Lemma fraud_stage_facts cl pc pa o entries tail :
  fraud_stage cl pc pa o entries tail ->
  o <> Returned
  /\ filter is_decode tail = []
  /\ filter is_clarification tail = []
  /\ length (filter is_invocation tail) <= 2
  /\ recorded tail = entries
  /\ stored_at_once tail
  /\ dict_get entries "error" = None
  /\ dict_get entries "ClaimHandlerAgent Output" = None.
Proof.
  destruct 1 as [| | ? ? ? ? ? ? ? ? ? ? ? ? ? He]; [stage_solve .. |].
  destruct (evaluator_stage_facts _ _ _ _ _ _ He)
    as (? & ? & ? & ? & ? & ? & ? & ?).
  stage_solve.
Qed.

Lemma policy_stage_facts cl pc o entries tail :
  policy_stage cl pc o entries tail ->
  o <> Returned
  /\ filter is_decode tail = []
  /\ filter is_clarification tail = []
  /\ length (filter is_invocation tail) <= 3
  /\ recorded tail = entries
  /\ stored_at_once tail
  /\ dict_get entries "error" = None
  /\ dict_get entries "ClaimHandlerAgent Output" = None
  /\ dict_get entries "Parsed Claim" = Some pc.
Proof.
  destruct 1 as [| | ? ? ? ? ? ? ? ? ? ? ? ? ? ? ? Hf]; [stage_solve .. |].
  destruct (fraud_stage_facts _ _ _ _ _ _ Hf)
    as (? & ? & ? & ? & ? & ? & ? & ?).
  stage_solve.
Qed.


Lemma parse_stage_facts cl a r1 o entries tail :
  parse_stage cl a r1 o entries tail ->
  length (filter is_decode tail) <= 2
  /\ length (filter is_clarification tail) <= 1
  /\ length (filter is_invocation tail)
       <= 3 + length (filter is_clarification tail)
  /\ recorded tail = entries
  /\ stored_at_once tail
  /\ (o = Returned -> entries = [("error", VStr FATAL_PARSE)])
  /\ (o <> Returned -> dict_get entries "error" = None)
  /\ dict_get entries "ClaimHandlerAgent Output" = None.
Proof.
  destruct 1 as [? ? ? ? ? Hp | | ? ? ? ? ? ? ? ? ? ? ? ? Hp | |].
  all: try (destruct (policy_stage_facts _ _ _ _ _ Hp)
              as (? & ? & ? & ? & ? & ? & ? & ? & ?)).
  all: stage_solve.
  all: try solve [intros; congruence | intros; contradiction].
Qed.

Lemma body_shape_facts q o entries tr :
  body_shape q o entries tr ->
  length (filter is_decode tr) <= 2
  /\ length (filter is_clarification tr) <= 1
  /\ length (filter is_invocation tr)
       <= 4 + length (filter is_clarification tr)
  /\ recorded tr = entries
  /\ stored_at_once tr
  /\ (o = Returned ->
      exists a f r1,
        entries = [("ClaimHandlerAgent Output", r1); ("error", VStr FATAL_PARSE)]
        /\ hd_error (filter is_invocation tr)
           = Some (Invoked a (q ++ JSON_FORMAT)%string f r1))
  /\ (o <> Returned -> dict_get entries "error" = None).
Proof.
  destruct 1 as [| | | ? ? ? ? ? ? ? ? ? ? ? ? Hp].
  1-3: stage_solve; intros; discriminate.
  destruct (parse_stage_facts _ _ _ _ _ _ Hp)
    as (? & ? & ? & ? & ? & Hret & Herr & ?).
  stage_solve.
  intros ->. rewrite (Hret eq_refl). cbn. eauto.
Qed.

(** [results] never holds an ["error"] entry when the body raises, so the
    outer handler appends one. *)
Lemma final_results_raised q e entries tr :
  body_shape q (Raised e) entries tr ->
  final_results (Raised e) entries = entries ++ [("error", VStr (exn_msg e))].
Proof.
  intros Hb. apply body_shape_facts in Hb.
  destruct Hb as (_ & _ & _ & _ & _ & _ & Herr).
  cbn. apply dict_set_fresh, Herr. discriminate.
Qed.

Lemma final_outcome_returned o : final_outcome o = Returned -> o = Returned.
Proof. destruct o; cbn; congruence. Qed.

Lemma stored_at_once_final o tr :
  stored_at_once tr -> stored_at_once (final_trace o tr).
Proof.
  destruct o; cbn; auto. intros H. apply stored_at_once_app; cbn; auto.
Qed.

Lemma stored_at_once_split tr :
  stored_at_once tr ->
  forall pre a q f r post,
    tr = pre ++ Invoked a q f r :: post ->
    (exists k post', post = Stored k r :: post')
    \/ (q = clarification_query
        /\ exists post', post = Decoded (py_str r) :: post').
Proof.
  intros H pre. revert tr H.
  induction pre as [| ev pre IH]; intros tr H a q f r post ->; cbn in H.
  - tauto.
  - destruct ev; eauto. destruct H as [_ H]. eauto.
Qed.

(** * The claims *)

(** C1 (as amended).  When [json.loads] raises JSONDecodeError on the
    handler's answer and on the answer to the clarification, the run ends
    by [return results] with the fatal parse message under ["error"], and
    the two round trips with the handler are the only agent invocations of
    the run: no agent is invoked for the policy, fraud or evaluation
    stages. *)
Theorem fatal_parse_stops_run q w a1 q1 f1 r1 a2 q2 f2 r2 rest e1 e2 :
  invocations (run_trace q w)
    = Invoked a1 q1 f1 r1 :: Invoked a2 q2 f2 r2 :: rest ->
  json_loads (py_str r1) = inl e1 -> is_JSONDecodeError e1 = true ->
  json_loads (py_str r2) = inl e2 -> is_JSONDecodeError e2 = true ->
  fst (run q w) = Returned
  /\ dict_get (process_claim_run_agents q w) "error" = Some (VStr FATAL_PARSE)
  /\ rest = []
  /\ q1 = (q ++ JSON_FORMAT)%string /\ q2 = clarification_query /\ a2 = a1.
Proof.
  intros H L1 C1 L2 C2.
  destruct (run_shape q w) as (o & entries & tr & Hb & _ & _ & Ho & Hr & Ht).
  rewrite Ht in H. rewrite Ho, Hr. clear Ho Hr Ht.
  destruct Hb as [| | | ? ? ? ? ? ? ? ? ? ? ? ? Hp];
    try (read_trace; discriminate H).
  destruct Hp; read_trace.
  all: injection H as <- <- <- <-.
  all: try congruence.
  all: try (injection H as <- <- <- <-; try congruence).
  subst. repeat split; reflexivity.
Qed.

(** C4. A run calls [json.loads] at most twice and sends the clarification
    request at most once; beyond that one extra round trip there are at most
    the four round trips of the four stages. *)
Theorem parse_attempts_bounded q w :
  length (decode_attempts (run_trace q w)) <= 2
  /\ length (clarifications (run_trace q w)) <= 1
  /\ length (invocations (run_trace q w))
       <= 4 + length (clarifications (run_trace q w)).
Proof.
  destruct (run_shape q w) as (o & entries & tr & Hb & _ & _ & _ & _ & Ht).
  rewrite Ht. unfold decode_attempts, clarifications, invocations.
  rewrite invocations_final, decodes_final, clarifications_final.
  apply body_shape_facts in Hb. tauto.
Qed.

(** C10. A run that ends at the [return results] of the failed clarification
    returns exactly two entries: the handler's output, which is the response
    of the first round trip, and the fatal parse message under ["error"]. *)
Theorem fatal_result_has_two_entries q w :
  fst (run q w) = Returned ->
  exists a f r1,
    process_claim_run_agents q w
      = [("ClaimHandlerAgent Output", r1); ("error", VStr FATAL_PARSE)]
    /\ hd_error (invocations (run_trace q w))
       = Some (Invoked a (q ++ JSON_FORMAT)%string f r1)
    /\ dict_get (process_claim_run_agents q w) "Parsed Claim" = None
    /\ dict_keys (process_claim_run_agents q w)
       = ["ClaimHandlerAgent Output"; "error"].
Proof.
  intros H.
  destruct (run_shape q w) as (o & entries & tr & Hb & _ & _ & Ho & Hr & Ht).
  rewrite Ho in H. apply final_outcome_returned in H. subst o.
  apply body_shape_facts in Hb.
  destruct Hb as (_ & _ & _ & _ & _ & Hret & _).
  destruct (Hret eq_refl) as (a & f & r1 & -> & Hhd).
  exists a, f, r1. rewrite Hr, Ht. cbn [final_results final_trace].
  repeat split; auto.
Qed.

(** C5. The response of every round trip is stored in [results] by the
    very next operation of the run, before anything else can use it (the
    response to the clarification request, which belongs to the parsing of
    the ClaimHandler stage, is decoded at once instead).  When the body of
    the run is aborted by an exception, the entries written so far are
    returned unchanged, in order, followed by the text of the exception
    under ["error"]. *)
Theorem outputs_recorded_before_use q w :
  (forall pre a qq f r post,
      run_trace q w = pre ++ Invoked a qq f r :: post ->
      (exists k post', post = Stored k r :: post')
      \/ (qq = clarification_query
          /\ exists post', post = Decoded (py_str r) :: post'))
  /\ (forall e s,
        try_body q (mkState w [] []) = (Raised e, s) ->
        process_claim_run_agents q w
          = st_results s ++ [("error", VStr (exn_msg e))]
        /\ st_results s = recorded (st_trace s)
        /\ run_trace q w = st_trace s ++ abort_tail e).
Proof.
  destruct (run_shape q w) as (o & entries & tr & Hb & Hfst & Hres & _ & Hr & Ht).
  pose proof (try_body_shape q w) as Hshape.
  split.
  - apply stored_at_once_split. rewrite Ht.
    apply stored_at_once_final. apply body_shape_facts in Hb. tauto.
  - intros e s E. rewrite E in *. cbn [fst snd] in *. subst o entries.
    rewrite Hr. rewrite (final_results_raised q e _ _ Hb). split; [reflexivity |].
    apply body_shape_facts in Hshape.
    destruct Hshape as (_ & _ & _ & Hrec & _). split; [now rewrite Hrec |].
    destruct (run_of_body q w) as (_ & _ & Ht'). rewrite E in Ht'. exact Ht'.
Qed.


(** C9. When the round trip with the ClaimHandler itself is caught raising,
    what is parsed is the sentinel, which is no JSON: the clarification
    request is always sent next, to the same agent.  When that round trip
    is caught raising as well, the run ends by [return results] with the
    fatal parse message, and the text of neither fault, under ["error"]. *)
Theorem handler_fault_forces_clarification q w a q1 e r1 rest :
  invocations (run_trace q w) = Invoked a q1 (Some e) r1 :: rest ->
  r1 = VStr SENTINEL
  /\ json_loads (py_str r1) = inl expecting_value
  /\ is_JSONDecodeError expecting_value = true
  /\ (exists f2 r2 rest', rest = Invoked a clarification_query f2 r2 :: rest')
  /\ (forall a2 q2 e2 r2 rest',
        rest = Invoked a2 q2 (Some e2) r2 :: rest' ->
        fst (run q w) = Returned
        /\ process_claim_run_agents q w
           = [("ClaimHandlerAgent Output", VStr SENTINEL);
              ("error", VStr FATAL_PARSE)]
        /\ rest' = []).
Proof.
  intros H.
  destruct (run_shape q w) as (o & entries & tr & Hb & _ & _ & Ho & Hr & Ht).
  rewrite Ht in *. rewrite Ho, Hr. clear Ho Hr Ht.
  destruct Hb as [| | | ? ? ? ? ? ? ? ? ? ? ? Hi Hp];
    try (read_trace; discriminate H).
  assert (Hf1 : f1 = Some e) by (read_trace; congruence). subst f1.
  pose proof (invoke_tr_fault _ _ _ _ _ Hi) as ->.
  pose proof sentinel_not_json as Hs.
  assert (Hr1 : r1 = VStr SENTINEL) by (read_trace; congruence). subst r1.
  split; [reflexivity |]. split; [exact Hs |]. split; [reflexivity |].
  destruct Hp as [| | ? ? ? ? ? ? ? ? ? ? Hi2 | ? ? ? ? ? ? ? Hi2 | ? ? ? ? ? ? ? Hi2].
  1-2: exfalso; rewrite Hs in *; try discriminate;
       match goal with
       | H1 : inl _ = inl _ |- _ => injection H1 as <-
       end; discriminate.
  all: read_trace; injection H as <- <- <-.
  all: split; [eauto |].
  all: intros ? ? ? ? ? E; injection E as ? ? ? ? ?; subst.
  all: pose proof (invoke_tr_fault _ _ _ _ _ Hi2) as ->.
  all: rewrite Hs in *.
  all: repeat match goal with
       | H1 : inl _ = inl _ |- _ => injection H1 as <-
       | H1 : inl _ = inr _ |- _ => discriminate H1
       | H1 : is_JSONDecodeError expecting_value = false |- _ =>
           discriminate H1
       end.
  repeat split; reflexivity.
Qed.

(** C3 (as amended).  A fault raised by the agent's [get_response] is
    caught by [invoke_agent] and logged, and the text returned is the
    sentinel ["Error invoking agent."], with its full stop.  No call of
    [invoke_agent] ends by raising. *)
Theorem invoke_agent_catches_faults a q s :
  (forall e w',
      get_response (agent_client a) (agent_definition a) q (st_world s)
        = (inl e, w') ->
      invoke_agent a q s
        = (Normal (VStr "Error invoking agent."),
           mkState w' (st_results s)
             (st_trace s
                ++ [Logged "Error invoking agent." e;
                    Invoked a q (Some e) (VStr "Error invoking agent.")])))
  /\ exists r, fst (invoke_agent a q s) = Normal r.
Proof.
  split.
  - intros e w' E.
    unfold invoke_agent, bind, try_except, call, logging_exception, emit, ret.
    rewrite E. cbn. now rewrite <- app_assoc.
  - destruct (invoke_agent_spec a q s) as (f & r & w' & tr & E & _).
    exists r. now rewrite E.
Qed.

(** ** Runs that do not depend on the state of the services *)

Section Determinism.

Hypothesis services : deterministic_services.

Lemma blind_ret {A} (a : A) : world_blind (ret a).
Proof. intros s s' V. cbn. auto. Qed.

Lemma blind_bind {A B} (m : M A) (f : A -> M B) :
  world_blind m -> (forall a, world_blind (f a)) -> world_blind (bind m f).
Proof.
  intros Hm Hf s s' V. unfold bind.
  destruct (Hm s s' V) as [Ho Hv].
  destruct (m s) as [o1 s1], (m s') as [o2 s2]; cbn in *. subst o2.
  destruct o1; cbn; auto. now apply Hf.
Qed.

Lemma blind_lift {A} (r : exn + A) : world_blind (lift r).
Proof. intros s s' V. unfold lift. destruct r; cbn; auto. Qed.

Lemma blind_call {A} (op : World -> (exn + A) * World) :
  (forall w w', fst (op w) = fst (op w')) -> world_blind (call op).
Proof.
  intros Hop s s' [Vr Vt]. unfold call.
  specialize (Hop (st_world s) (st_world s')).
  destruct (op (st_world s)) as [r1 w1], (op (st_world s')) as [r2 w2].
  cbn in Hop. subst r2. destruct r1; cbn; split; auto; split; auto.
Qed.

Lemma blind_emit ev : world_blind (emit ev).
Proof.
  intros s s' [Vr Vt]. unfold emit, same_view. cbn. repeat split; congruence.
Qed.

Lemma blind_set_result k v : world_blind (set_result k v).
Proof.
  intros s s' [Vr Vt]. unfold set_result, same_view. cbn.
  repeat split; congruence.
Qed.

Lemma blind_return_results {A} : world_blind (@return_results P A).
Proof. intros s s' V. cbn. auto. Qed.

Lemma blind_try_except {A} (body : M A) cls handler :
  world_blind body -> (forall e, world_blind (handler e)) ->
  world_blind (try_except body cls handler).
Proof.
  intros Hb Hh s s' V. unfold try_except.
  destruct (Hb s s' V) as [Ho Hv].
  destruct (body s) as [o1 s1], (body s') as [o2 s2]; cbn in *. subst o2.
  destruct o1; cbn; auto. destruct (cls e); cbn; auto. now apply Hh.
Qed.

Lemma blind_async_with {R A} (enter : M R) release (body : R -> M A) :
  world_blind enter -> (forall r, world_blind (body r)) ->
  world_blind (async_with enter release body).
Proof.
  intros He Hb s s' V. unfold async_with.
  destruct (He s s' V) as [Ho Hv].
  destruct (enter s) as [o1 s1], (enter s') as [o2 s2]; cbn in *. subst o2.
  destruct o1 as [r | e |]; cbn; auto.
  destruct (Hb r s1 s2 Hv) as [Ho' [Hr' Ht']].
  destruct (body r s1) as [o3 s3], (body r s2) as [o4 s4]; cbn in *.
  repeat split; assumption.
Qed.

Ltac blind :=
  repeat match goal with
  | |- world_blind (bind _ _) => apply blind_bind; [| intros ? ]
  | |- world_blind (try_except _ _ _) => apply blind_try_except; [| intros ? ]
  | |- world_blind (async_with _ _ _) => apply blind_async_with; [| intros ? ]
  | |- world_blind (ret _) => apply blind_ret
  | |- world_blind (lift _) => apply blind_lift
  | |- world_blind (emit _) => apply blind_emit
  | |- world_blind (set_result _ _) => apply blind_set_result
  | |- world_blind return_results => apply blind_return_results
  | |- world_blind (call _) => apply blind_call; intros; apply services
  | |- world_blind (match ?x with (_, _) => _ end) => destruct x
  end.

Lemma blind_invoke_agent a q : world_blind (invoke_agent a q).
Proof.
  unfold invoke_agent, logging_exception. blind.
  match goal with |- world_blind (match ?v with _ => _ end) => destruct v end;
    blind.
Qed.

Lemma blind_run_stages cl fq : world_blind (run_stages cl fq).
Proof.
  unfold run_stages, json_loads_m, logging_exception, st_write.
  repeat first [ apply blind_invoke_agent | progress blind ].
Qed.

Lemma blind_try_body q : world_blind (try_body q).
Proof. unfold try_body. blind. apply blind_run_stages. Qed.

Lemma run_blind q w w' :
  fst (run q w) = fst (run q w')
  /\ process_claim_run_agents q w = process_claim_run_agents q w'
  /\ run_trace q w = run_trace q w'.
Proof.
  assert (Hb : world_blind
    (try_except (try_body q) is_Exception
       (fun e =>
          bind (logging_exception "An unexpected error occurred ." e)
            (fun _ => set_result "error" (VStr (exn_msg e)))))).
  { unfold logging_exception. blind. apply blind_try_body. }
  destruct (Hb (mkState w [] []) (mkState w' [] [])) as (Ho & Hr & Ht).
  { split; reflexivity. }
  unfold process_claim_run_agents, run_trace, run. auto.
Qed.

End Determinism.

(** C8. With services whose answers do not depend on the state they are
    in, a second run on the same query, started in the state the first run
    left, ends the same way and returns the same dictionary: the same
    labels in the same order with the same values. *)
Theorem deterministic_stub_same_result q w :
  deterministic_services ->
  process_claim_run_agents q (run_world q w) = process_claim_run_agents q w
  /\ dict_keys (process_claim_run_agents q (run_world q w))
     = dict_keys (process_claim_run_agents q w)
  /\ fst (run q (run_world q w)) = fst (run q w)
  /\ run_trace q (run_world q w) = run_trace q w.
Proof.
  intros D. destruct (run_blind D q (run_world q w) w) as (Ho & Hr & Ht).
  rewrite Hr. auto.
Qed.

(** ** Well-shaped claims *)

Lemma well_shaped_policy pc :
  well_shaped pc = true ->
  policy_fields pc
    = inr (field pc "policy_assessor" "policy_number",
           field pc "policy_assessor" "claim_type",
           field pc "policy_assessor" "damage_claim").
Proof.
  unfold well_shaped, section_ok, policy_fields, field, py_get.
  intros H. apply andb_prop in H as [H _].
  destruct pc; try discriminate.
  destruct (dict_get d "policy_assessor") as [v |]; [| reflexivity].
  destruct v; try discriminate. reflexivity.
Qed.

Lemma well_shaped_fraud pc :
  well_shaped pc = true ->
  fraud_field pc = inr (field pc "fraud_detector" "claim_description").
Proof.
  unfold well_shaped, section_ok, fraud_field, field, py_get.
  intros H. apply andb_prop in H as [_ H].
  destruct pc; try discriminate.
  destruct (dict_get d "fraud_detector") as [v |]; [| reflexivity].
  destruct v; try discriminate. reflexivity.
Qed.

Lemma lookup_cannot_fault cl id w e w' :
  lookups_succeed -> get_agent cl id w = (inl e, w') -> False.
Proof.
  intros L H. destruct (L cl id w) as (d & w'' & E). congruence.
Qed.

Lemma non_object_faults pc :
  well_shaped pc = false ->
  exists v,
    first_non_object pc = Some v
    /\ (policy_fields pc
         = inl (mkExn AttributeError
                  ("'" ++ type_name v ++ "' object has no attribute 'get'"))
        \/ ((exists fields, policy_fields pc = inr fields)
            /\ fraud_field pc
               = inl (mkExn AttributeError
                        ("'" ++ type_name v
                           ++ "' object has no attribute 'get'")))).
Proof.
  unfold well_shaped, section_ok, first_non_object, policy_fields, fraud_field.
  intros W.
  destruct pc; try (eexists; split; [reflexivity | left; reflexivity]).
  cbn [py_get] in *.
  destruct (dict_get d "policy_assessor") as [v |];
    [destruct v; try (eexists; split; [reflexivity | left; reflexivity]) |].
  all: destruct (dict_get d "fraud_detector") as [v' |];
    [destruct v'; try discriminate W | discriminate W].
  all: eexists; split; [reflexivity |].
  all: right; split; [eexists; reflexivity | reflexivity].
Qed.

(** C6 (as amended).  Every agent lookup succeeds and the handler's answer
    decodes.  When the decoded value is an object whose policy_assessor and
    fraud_detector sections, where present, are objects, nothing raises
    downstream: the three later agents are invoked in order, on queries in
    which an absent field reads [None], and the run completes with the
    handler's output, the parsed claim and the three later outputs as its
    result.  Otherwise [.get] raises AttributeError on the first value that
    is not an object: the run ends without raising, with the text of that
    exception under ["error"], after at most the PolicyAssessor round trip,
    and with no FraudDetector and no ClaimEvaluator output. *)
Theorem well_shaped_claim_completes q w a q1 f r1 rest pc :
  lookups_succeed ->
  invocations (run_trace q w) = Invoked a q1 f r1 :: rest ->
  json_loads (py_str r1) = inr pc ->
  (well_shaped pc = true ->
   exists ap fp pa af ff fa ae fe ce,
     rest = [Invoked ap
               (policy_query (field pc "policy_assessor" "policy_number")
                  (field pc "policy_assessor" "claim_type")
                  (field pc "policy_assessor" "damage_claim")) fp pa;
             Invoked af
               (fraud_query (field pc "fraud_detector" "claim_description"))
               ff fa;
             Invoked ae (evaluator_query pa fa) fe ce]
     /\ process_claim_run_agents q w
        = [("ClaimHandlerAgent Output", r1); ("Parsed Claim", pc);
           ("PolicyAssessorAgent Output", pa);
           ("FraudDetectionAgent Output", fa);
           ("ClaimEvaluatorAgent Output", ce)]
     /\ fst (run q w) = Normal tt)
  /\ (well_shaped pc = false ->
      exists v,
        first_non_object pc = Some v
        /\ dict_get (process_claim_run_agents q w) "error"
           = Some (VStr ("'" ++ type_name v
                           ++ "' object has no attribute 'get'"))
        /\ dict_get (process_claim_run_agents q w) "Parsed Claim" = Some pc
        /\ dict_get (process_claim_run_agents q w) "FraudDetectionAgent Output"
           = None
        /\ dict_get (process_claim_run_agents q w) "ClaimEvaluatorAgent Output"
           = None
        /\ length rest <= 1
        /\ fst (run q w) = Normal tt).
Proof.
  intros Lk H L.
  destruct (run_shape q w) as (o & entries & tr & Hb & _ & _ & Ho & Hr & Ht).
  rewrite Ht in *. rewrite Ho, Hr. clear Ho Hr Ht.
  destruct Hb as [| | | ? ? ? ? ? ? ? ? ? ? ? ? Hp];
    try (read_trace; discriminate H).
  destruct Hp as [? ? ? ? ? Hs | | | |]; read_trace.
  all: injection H as <- <- <- <- <-.
  all: try congruence.
  assert (pc0 = pc) by congruence. subst pc0.
  split; intros W.
  - pose proof (well_shaped_policy pc W) as Wp.
    pose proof (well_shaped_fraud pc W) as Wf.
    destruct Hs as [| | ? ? ? ? ? ? ? ? ? ? ? ? ? ? ? Hfs];
      try congruence; try solve [exfalso; eauto using lookup_cannot_fault].
    destruct Hfs as [| | ? ? ? ? ? ? ? ? ? ? ? ? ? Hes];
      try congruence; try solve [exfalso; eauto using lookup_cannot_fault].
    destruct Hes; try solve [exfalso; eauto using lookup_cannot_fault].
    read_trace.
    rewrite Wp in *. rewrite Wf in *.
    repeat match goal with
    | E : inr _ = inr _ |- _ => injection E as ? ? ?; subst
    | E : inr _ = inr _ |- _ => injection E as ?; subst
    end.
    do 9 eexists. repeat split; reflexivity.
  - destruct (non_object_faults pc W) as (v & Hv & [Hpf | ((fields & Hpf) & Hff)]);
      exists v; (split; [exact Hv |]).
    + destruct Hs as [e0 Hpf' | | ];
        try congruence; try solve [exfalso; eauto using lookup_cannot_fault].
      assert (e0 = mkExn AttributeError
                     ("'" ++ type_name v ++ "' object has no attribute 'get'"))
        by congruence.
      subst e0. read_trace. repeat split; auto.
    + destruct Hs as [| | ? ? ? ? ? ? ? ? ? ? ? ? ? ? ? Hfs];
        try congruence; try solve [exfalso; eauto using lookup_cannot_fault].
      destruct Hfs as [e0 Hff' | | ];
        try congruence; try solve [exfalso; eauto using lookup_cannot_fault].
      assert (e0 = mkExn AttributeError
                     ("'" ++ type_name v ++ "' object has no attribute 'get'"))
        by congruence.
      subst e0. read_trace. repeat split; auto.
Qed.

(** ** Finding the storing of the policy output in a trace *)

Lemma invoke_tr_no_store k a q f r tr :
  invoke_tr a q f r tr -> filter (stores_key k) tr = [].
Proof. now destruct 1. Qed.

Lemma invoke_tr_last a q f r tr d :
  invoke_tr a q f r tr -> last tr d = Invoked a q f r.
Proof. now destruct 1. Qed.

Lemma invoke_tr_nonempty a q f r tr : invoke_tr a q f r tr -> tr <> [].
Proof. destruct 1; discriminate. Qed.

Lemma last_app_nonempty {A} (l l' : list A) (d : A) :
  l' <> [] -> last (l ++ l') d = last l' d.
Proof.
  intros Hl'. induction l as [| x l IH]; [reflexivity |].
  cbn [app]. rewrite <- IH.
  destruct (l ++ l') eqn:E; [| reflexivity].
  apply app_eq_nil in E. tauto.
Qed.

Lemma final_trace_app o l l' : final_trace o (l ++ l') = l ++ final_trace o l'.
Proof. destruct o; cbn; auto. now rewrite app_assoc. Qed.

Lemma final_trace_cons o x l : final_trace o (x :: l) = x :: final_trace o l.
Proof. now destruct o. Qed.

Lemma stores_final k o tr :
  k <> "error"%string ->
  filter (stores_key k) (final_trace o tr) = filter (stores_key k) tr.
Proof.
  intros Hk. destruct o; cbn [final_trace]; auto.
  unfold abort_tail. rewrite filter_app. cbn [filter stores_key].
  assert (E : String.eqb "error" k = false)
    by (apply String.eqb_neq; congruence).
  rewrite E. apply app_nil_r.
Qed.

Lemma split_unique (p : event -> bool) A x B A' x' B' :
  A ++ x :: B = A' ++ x' :: B' ->
  p x = true -> p x' = true -> filter p A = [] -> filter p A' = [] ->
  A = A' /\ x = x' /\ B = B'.
Proof.
  revert A'. induction A as [| a A IH]; intros [| a' A'] E Hx Hx' HA HA';
    cbn in *.
  - injection E as -> ->. auto.
  - injection E as -> _. rewrite Hx in HA'. discriminate.
  - injection E as <- _. rewrite Hx' in HA. discriminate.
  - injection E as <- E.
    destruct (p a); [discriminate |].
    destruct (IH A' E Hx Hx' HA HA') as (-> & -> & ->). auto.
Qed.

(** A trace that stores under [k] once has one way to be cut there. *)
Lemma store_split k T A pa B pre X r post :
  T = A ++ Stored k pa :: B ->
  filter (stores_key k) A = [] -> filter (stores_key k) B = [] ->
  T = pre ++ X :: Stored k r :: post ->
  stores_key k X = false ->
  pre ++ [X] = A /\ r = pa /\ post = B.
Proof.
  intros -> HA HB E HX.
  assert (Hpre : filter (stores_key k) pre = []).
  { apply (f_equal (filter (stores_key k))) in E.
    rewrite !filter_app in E. cbn in E.
    rewrite HX, HA, HB, String.eqb_refl in E. cbn in E.
    destruct (filter (stores_key k) pre) as [| y [| z l]]; auto;
      cbn in E; discriminate. }
  replace (pre ++ X :: Stored k r :: post)
    with ((pre ++ [X]) ++ Stored k r :: post) in E
    by (now rewrite <- app_assoc).
  apply split_unique with (p := stores_key k) in E; cbn;
    rewrite ?String.eqb_refl; auto.
  - destruct E as (-> & E & ->). injection E as ->. auto.
  - rewrite filter_app. cbn. rewrite HX, Hpre. reflexivity.
Qed.

Ltac store_read :=
  repeat match goal with
  | H : invoke_tr ?a ?q ?f ?r ?tr |- context [filter (stores_key ?k) ?tr] =>
      rewrite (invoke_tr_no_store k a q f r tr H)
  | |- _ =>
      progress (rewrite ?filter_app;
                cbn [filter stores_key app String.eqb Ascii.eqb Bool.eqb])
  end.

Lemma evaluator_stage_no_policy_store cl pa fa o entries tail :
  evaluator_stage cl pa fa o entries tail ->
  filter (stores_key "PolicyAssessorAgent Output") tail = [].
Proof. destruct 1; store_read; reflexivity. Qed.

Lemma fraud_stage_no_policy_store cl pc pa o entries tail :
  fraud_stage cl pc pa o entries tail ->
  filter (stores_key "PolicyAssessorAgent Output") tail = [].
Proof.
  destruct 1 as [| | ? ? ? ? ? ? ? ? ? ? ? ? ? He]; store_read; auto.
  now rewrite (evaluator_stage_no_policy_store _ _ _ _ _ _ He).
Qed.

Lemma policy_stage_located cl pc o entries tail :
  policy_stage cl pc o entries tail ->
  filter (stores_key "PolicyAssessorAgent Output") tail = []
  \/ exists A d n t c fp pa trP eF tailF,
       tail = (A ++ trP) ++ Stored "PolicyAssessorAgent Output" pa :: tailF
       /\ filter (stores_key "PolicyAssessorAgent Output") A = []
       /\ invoke_tr (mkAgent cl d) (policy_query n t c) fp pa trP
       /\ fraud_stage cl pc pa o eF tailF
       /\ entries
          = ("Parsed Claim", pc) :: ("PolicyAssessorAgent Output", pa) :: eF.
Proof.
  destruct 1 as [| | n t c d w w' fp pa tr o entries tail Hf Hg Hi Hs];
    [left; reflexivity .. |].
  right.
  exists [Stored "Parsed Claim" pc;
          Wrote (nl ++ "Sending query to PolicyAssessorAgent...")%string].
  exists d, n, t, c, fp, pa, tr, entries, tail.
  repeat split; auto.
Qed.

Lemma parse_stage_located cl a r1 o entries tail :
  parse_stage cl a r1 o entries tail ->
  filter (stores_key "PolicyAssessorAgent Output") tail = []
  \/ exists A d n t c fp pa trP pc eF tailF,
       tail = (A ++ trP) ++ Stored "PolicyAssessorAgent Output" pa :: tailF
       /\ filter (stores_key "PolicyAssessorAgent Output") A = []
       /\ invoke_tr (mkAgent cl d) (policy_query n t c) fp pa trP
       /\ fraud_stage cl pc pa o eF tailF
       /\ entries
          = ("Parsed Claim", pc) :: ("PolicyAssessorAgent Output", pa) :: eF.
Proof.
  destruct 1 as [pc o entries tail L Hs | |
                 e1 f2 r2 tr2 pc o entries tail L1 C1 Hi L2 Hs | |].
  2, 4, 5: left; store_read; reflexivity.
  - destruct (policy_stage_located _ _ _ _ _ Hs)
      as [Hn | (A & d & n & t & c & fp & pa & trP & eF & tailF
                & -> & HA & Hp & Hf & ->)].
    + left. store_read. exact Hn.
    + right. exists (Decoded (py_str r1) :: A).
      exists d, n, t, c, fp, pa, trP, pc, eF, tailF.
      repeat split; auto.
  - destruct (policy_stage_located _ _ _ _ _ Hs)
      as [Hn | (A & d & n & t & c & fp & pa & trP & eF & tailF
                & -> & HA & Hp & Hf & ->)].
    + left. store_read. exact Hn.
    + right.
      exists (Decoded (py_str r1)
                :: Logged "Failed to parse JSON output from ClaimHandlerAgent. Attempting clarification..." e1
                :: tr2 ++ Decoded (py_str r2) :: A).
      exists d, n, t, c, fp, pa, trP, pc, eF, tailF.
      repeat split; auto.
      * cbn [app]. now rewrite <- !app_assoc.
      * store_read. exact HA.
Qed.

Lemma body_located q o entries tr :
  body_shape q o entries tr ->
  filter (stores_key "PolicyAssessorAgent Output") tr = []
  \/ exists A cl d n t c fp pa trP r1 pc eF tailF,
       tr = (A ++ trP) ++ Stored "PolicyAssessorAgent Output" pa :: tailF
       /\ filter (stores_key "PolicyAssessorAgent Output") A = []
       /\ invoke_tr (mkAgent cl d) (policy_query n t c) fp pa trP
       /\ fraud_stage cl pc pa o eF tailF
       /\ entries
          = ("ClaimHandlerAgent Output", r1) :: ("Parsed Claim", pc)
              :: ("PolicyAssessorAgent Output", pa) :: eF.
Proof.
  destruct 1 as [| | | cl d0 w w' f1 r1 tr1 o entries tail Hg Hi Hp];
    [left; reflexivity .. |].
  destruct (parse_stage_located _ _ _ _ _ _ Hp)
    as [Hn | (A & d & n & t & c & fp & pa & trP & pc & eF & tailF
              & -> & HA & Hpo & Hf & ->)].
  - left. store_read. exact Hn.
  - right. exists (tr1 ++ Stored "ClaimHandlerAgent Output" r1 :: A).
    exists cl, d, n, t, c, fp, pa, trP, r1, pc, eF, tailF.
    repeat split; auto.
    + cbn [app]. now rewrite <- !app_assoc.
    + store_read. exact HA.
Qed.

Lemma section_ok_fraud pc :
  section_ok pc "fraud_detector" = true ->
  fraud_field pc = inr (field pc "fraud_detector" "claim_description").
Proof.
  unfold section_ok, fraud_field, field, py_get.
  destruct pc; try discriminate.
  destruct (dict_get d "fraud_detector") as [v |]; [| reflexivity].
  destruct v; try discriminate. reflexivity.
Qed.

Lemma named_lookup_cannot_fault name cl w e w' :
  lookup_succeeds name -> get_agent cl (agent_id name) w = (inl e, w') -> False.
Proof.
  intros L H. destruct (L cl w) as (d & w'' & E). congruence.
Qed.


(** * Further properties *)

(** ** How a run can end, and what it then returns *)

Ltac open_stages :=
  repeat match goal with
  | H : parse_stage _ _ _ _ _ _ |- _ => destruct H
  | H : policy_stage _ _ _ _ _ |- _ => destruct H
  | H : fraud_stage _ _ _ _ _ _ |- _ => destruct H
  | H : evaluator_stage _ _ _ _ _ _ |- _ => destruct H
  end.

Lemma body_ends q o entries tr :
  body_shape q o entries tr ->
  (o = Normal tt
   /\ exists r1 pc pa fa ce,
        entries = [("ClaimHandlerAgent Output", r1); ("Parsed Claim", pc);
                   ("PolicyAssessorAgent Output", pa);
                   ("FraudDetectionAgent Output", fa);
                   ("ClaimEvaluatorAgent Output", ce)])
  \/ (o = Returned
      /\ exists r1,
           entries = [("ClaimHandlerAgent Output", r1);
                      ("error", VStr FATAL_PARSE)])
  \/ (exists e n,
        o = Raised e /\ n <= 4
        /\ dict_keys entries = firstn n LABELS
        /\ dict_get entries "error" = None).
Proof.
  destruct 1; open_stages.
  all: first
    [ solve [left; split; [reflexivity | do 5 eexists; reflexivity]]
    | solve [right; left; split; [reflexivity | eexists; reflexivity]]
    | right; right; eexists;
      first [ exists 0; solve [repeat split; lia]
            | exists 1; solve [repeat split; lia]
            | exists 2; solve [repeat split; lia]
            | exists 3; solve [repeat split; lia]
            | exists 4; solve [repeat split; lia] ] ].
Qed.

Lemma dict_keys_app (d d' : dict) : dict_keys (d ++ d') = dict_keys d ++ dict_keys d'.
Proof. apply map_app. Qed.

(** The three ways a run ends, with the dictionary it returns. *)
Lemma result_cases q w :
  (fst (run q w) = Normal tt
   /\ fst (try_body q (mkState w [] [])) = Normal tt
   /\ exists r1 pc pa fa ce,
        process_claim_run_agents q w
          = [("ClaimHandlerAgent Output", r1); ("Parsed Claim", pc);
             ("PolicyAssessorAgent Output", pa);
             ("FraudDetectionAgent Output", fa);
             ("ClaimEvaluatorAgent Output", ce)])
  \/ (fst (run q w) = Returned
      /\ exists r1,
           process_claim_run_agents q w
             = [("ClaimHandlerAgent Output", r1);
                ("error", VStr FATAL_PARSE)])
  \/ (exists e n entries,
        fst (run q w) = Normal tt
        /\ fst (try_body q (mkState w [] [])) = Raised e
        /\ n <= 4
        /\ dict_keys entries = firstn n LABELS
        /\ process_claim_run_agents q w
           = entries ++ [("error", VStr (exn_msg e))]
        /\ dict_get (process_claim_run_agents q w) "error"
           = Some (VStr (exn_msg e))).
Proof.
  destruct (run_shape q w) as (o & entries & tr & Hb & Hfst & _ & Ho & Hr & _).
  rewrite Ho, Hr, Hfst. clear Ho Hr Hfst.
  destruct (body_ends _ _ _ _ Hb)
    as [(-> & He) | [(-> & He) | (e & n & -> & Hn & Hk & Herr)]].
  - left. auto.
  - right. left. auto.
  - right. right. exists e, n, entries. cbn [final_outcome final_results].
    rewrite dict_get_set_same, (dict_set_fresh _ _ _ Herr).
    repeat split; auto.
Qed.

(** X4. The labels of the returned dictionary are the five labels of a
    complete run in their fixed order, or the first [n] of them, [n] at most
    four, followed by ["error"]: an entry is never written out of order,
    twice, or after the error. *)
Theorem result_labels_in_order q w :
  dict_keys (process_claim_run_agents q w) = LABELS
  \/ exists n,
       n <= 4
       /\ dict_keys (process_claim_run_agents q w)
          = firstn n LABELS ++ ["error"%string].
Proof.
  destruct (result_cases q w)
    as [(_ & _ & r1 & pc & pa & fa & ce & ->)
       | [(_ & r1 & ->) | (e & n & entries & _ & _ & Hn & Hk & -> & _)]].
  - left. reflexivity.
  - right. exists 1. split; [lia | reflexivity].
  - right. exists n. split; [exact Hn |]. now rewrite dict_keys_app, Hk.
Qed.

(** X5. The returned dictionary has no ["error"] entry exactly when it
    holds all five entries: the handler's output, the parsed claim and the
    three later outputs.  A partial result always carries ["error"]. *)
Theorem no_error_means_complete q w :
  dict_get (process_claim_run_agents q w) "error" = None
  <-> dict_keys (process_claim_run_agents q w) = LABELS.
Proof.
  destruct (result_cases q w)
    as [(_ & _ & r1 & pc & pa & fa & ce & ->)
       | [(_ & r1 & ->) | (e & n & entries & _ & _ & Hn & Hk & E & Herr)]].
  - split; reflexivity.
  - split; discriminate.
  - rewrite Herr. split; [discriminate |].
    rewrite E, dict_keys_app, Hk. intros H. exfalso.
    do 5 (destruct n as [| n]; [discriminate H |]). lia.
Qed.

(** X6. Whatever is stored under ["error"] is a [str]: the fatal parse
    message or the text of the exception that aborted the run. *)
Theorem error_entry_is_text q w v :
  dict_get (process_claim_run_agents q w) "error" = Some v ->
  exists text, v = VStr text.
Proof.
  destruct (result_cases q w)
    as [(_ & _ & r1 & pc & pa & fa & ce & ->)
       | [(_ & r1 & ->) | (e & n & entries & _ & _ & _ & _ & _ & Herr)]].
  - discriminate.
  - intros H. injection H as <-. eauto.
  - rewrite Herr. intros H. injection H as <-. eauto.
Qed.

(** X3. When the handler's first answer fails to decode and the answer to
    the clarification request decodes, that request is the only extra round
    trip, to the same agent, and the run goes on (at most three more round
    trips).  The result keeps the first, undecodable, answer under
    ["ClaimHandlerAgent Output"] and the value decoded from the second
    under ["Parsed Claim"]. *)
Theorem clarification_recovers q w a1 q1 f1 r1 a2 q2 f2 r2 rest e1 pc :
  invocations (run_trace q w)
    = Invoked a1 q1 f1 r1 :: Invoked a2 q2 f2 r2 :: rest ->
  json_loads (py_str r1) = inl e1 -> is_JSONDecodeError e1 = true ->
  json_loads (py_str r2) = inr pc ->
  q2 = clarification_query /\ a2 = a1
  /\ clarifications (run_trace q w) = [Invoked a2 q2 f2 r2]
  /\ decode_attempts (run_trace q w)
     = [Decoded (py_str r1); Decoded (py_str r2)]
  /\ dict_get (process_claim_run_agents q w) "ClaimHandlerAgent Output"
     = Some r1
  /\ dict_get (process_claim_run_agents q w) "Parsed Claim" = Some pc
  /\ length rest <= 3.
Proof.
  intros H L1 C1 L2.
  destruct (run_shape q w) as (o & entries & tr & Hb & _ & _ & _ & Hr & Ht).
  rewrite Ht in *. rewrite Hr. clear Hr Ht.
  rewrite !dict_get_final by discriminate.
  destruct Hb as [| | | ? ? ? ? ? ? ? ? ? ? ? ? Hp];
    try (read_trace; discriminate H).
  destruct Hp as [| | ? ? ? ? ? ? ? ? ? ? ? ? Hs | |]; read_trace.
  all: injection H as ? ? ? ? ?; subst.
  all: try congruence.
  destruct (policy_stage_facts _ _ _ _ _ Hs)
    as (_ & Hd & Hc & Hlen & _ & _ & _ & _ & Hpc).
  rewrite Hd, Hc. cbn [dict_get String.eqb Ascii.eqb Bool.eqb].
  repeat split; solve [congruence | exact Hlen].
Qed.

Lemma policy_fields_of_non_object pc :
  (forall d, pc <> VDict d) ->
  policy_fields pc
    = inl (mkExn AttributeError
             ("'" ++ type_name pc ++ "' object has no attribute 'get'")%string).
Proof.
  intros H. unfold policy_fields, py_get.
  destruct pc; try reflexivity. now destruct (H d).
Qed.

(** X7. When the handler's answer decodes to JSON that is not an object (a
    list, a string, a number, a boolean or null), the first [.get] raises
    AttributeError: the run returns the handler's output, the parsed value
    and the text of that error naming the value's type, and no later agent
    is invoked. *)
Theorem non_object_claim_aborts q w a q1 f r1 rest pc :
  invocations (run_trace q w) = Invoked a q1 f r1 :: rest ->
  json_loads (py_str r1) = inr pc ->
  (forall d, pc <> VDict d) ->
  process_claim_run_agents q w
    = [("ClaimHandlerAgent Output", r1); ("Parsed Claim", pc);
       ("error",
        VStr ("'" ++ type_name pc ++ "' object has no attribute 'get'")%string)]
  /\ rest = [].
Proof.
  intros H L Hpc.
  pose proof (policy_fields_of_non_object pc Hpc) as Hf.
  destruct (run_shape q w) as (o & entries & tr & Hb & _ & _ & _ & Hr & Ht).
  rewrite Ht in *. rewrite Hr. clear Hr Ht.
  destruct Hb as [| | | ? ? ? ? ? ? ? ? ? ? ? ? Hp];
    try (read_trace; discriminate H).
  destruct Hp as [? ? ? ? ? Hs | | | |]; read_trace.
  all: injection H as ? ? ? ? ?; subst.
  all: try congruence.
  assert (pc0 = pc) by congruence. subst pc0.
  destruct Hs; try congruence.
  assert (e = mkExn AttributeError
             ("'" ++ type_name pc ++ "' object has no attribute 'get'")%string)
    by congruence.
  subst e. read_trace. split; reflexivity.
Qed.

(** ** Faults while the services are set up, and the release of what was
    acquired *)

(** X8. When the credential cannot be acquired the run returns only the
    text of the fault under ["error"]; nothing but the logging and the
    storing of that error happens, and the services are left as the failed
    acquisition left them. *)
Theorem credential_fault_result q w e w' :
  open_credential w = (inl e, w') ->
  process_claim_run_agents q w = [("error", VStr (exn_msg e))]
  /\ run_trace q w = abort_tail e
  /\ run_world q w = w'.
Proof.
  intros H.
  unfold process_claim_run_agents, run_trace, run_world, run, try_except,
    try_body, async_with, call.
  cbn [st_world]. rewrite H. cbn. auto.
Qed.

(** X9. When the client cannot be created the run returns only the text
    of the fault under ["error"], and the credential acquired just before
    is released. *)
Theorem client_fault_releases_credential q w creds w1 e w2 :
  open_credential w = (inr creds, w1) ->
  create_client creds PROJECT_CONNECTION_STRING w1 = (inl e, w2) ->
  process_claim_run_agents q w = [("error", VStr (exn_msg e))]
  /\ run_trace q w = abort_tail e
  /\ run_world q w = close_credential creds w2.
Proof.
  intros H1 H2.
  unfold process_claim_run_agents, run_trace, run_world, run, try_except,
    try_body, async_with, call.
  cbn [st_world]. rewrite H1. cbn [st_world st_results st_trace].
  rewrite H2. cbn. auto.
Qed.

(** X10. Once the credential and the client are acquired, every run,
    however it ends (completed, stopped by the fatal parse error, or
    aborted by an exception), releases the client and then the
    credential. *)
Theorem resources_released q w creds w1 client w2 :
  open_credential w = (inr creds, w1) ->
  create_client creds PROJECT_CONNECTION_STRING w1 = (inr client, w2) ->
  exists w3, run_world q w = close_credential creds (close_client client w3).
Proof.
  intros H1 H2.
  unfold run_world, run, try_except, try_body, async_with, call.
  cbn [st_world]. rewrite H1. cbn [st_world st_results st_trace].
  rewrite H2. cbn [st_world st_results st_trace].
  destruct (run_stages client (q ++ JSON_FORMAT)%string _) as [[[] | e |] s];
    cbn; eauto.
Qed.

(** ** Where the queries of the later stages come from *)

Lemma invoke_tr_In a q f r tr : invoke_tr a q f r tr -> In (Invoked a q f r) tr.
Proof. destruct 1; cbn; auto. Qed.

Lemma In_final_trace o tr ev : In ev tr -> In ev (final_trace o tr).
Proof. destruct o; cbn; auto. intros H. apply in_or_app. auto. Qed.

Ltac find_in :=
  repeat first
    [ solve [apply in_or_app; left; eauto using invoke_tr_In]
    | apply in_cons
    | apply in_or_app; right ].

Ltac read_entry H :=
  rewrite dict_get_final in H by discriminate;
  cbn [dict_get String.eqb Ascii.eqb Bool.eqb] in H;
  first [discriminate H | injection H as <-].

(** X11. An evaluator output in the result is the response to a query
    built from exactly the policy and fraud outputs that the same result
    holds. *)
Theorem evaluator_reads_recorded_outputs q w ce :
  dict_get (process_claim_run_agents q w) "ClaimEvaluatorAgent Output"
    = Some ce ->
  exists pa fa a f,
    dict_get (process_claim_run_agents q w) "PolicyAssessorAgent Output"
      = Some pa
    /\ dict_get (process_claim_run_agents q w) "FraudDetectionAgent Output"
       = Some fa
    /\ In (Invoked a (evaluator_query pa fa) f ce) (run_trace q w).
Proof.
  intros H.
  destruct (run_shape q w) as (o & entries & tr & Hb & _ & _ & _ & Hr & Ht).
  rewrite Hr in *. rewrite Ht. clear Hr Ht.
  rewrite !dict_get_final by discriminate.
  destruct Hb; open_stages; read_entry H.
  all: do 4 eexists; split; [reflexivity | split; [reflexivity |]].
  all: apply In_final_trace; find_in.
Qed.

(** X12. A policy output in the result is the response to a query built
    from the three policy fields of the parsed claim that the same result
    holds. *)
Theorem policy_query_reads_parsed_claim q w pa :
  dict_get (process_claim_run_agents q w) "PolicyAssessorAgent Output"
    = Some pa ->
  exists pc n t c a f,
    dict_get (process_claim_run_agents q w) "Parsed Claim" = Some pc
    /\ policy_fields pc = inr (n, t, c)
    /\ In (Invoked a (policy_query n t c) f pa) (run_trace q w).
Proof.
  intros H.
  destruct (run_shape q w) as (o & entries & tr & Hb & _ & _ & _ & Hr & Ht).
  rewrite Hr in *. rewrite Ht. clear Hr Ht.
  rewrite !dict_get_final by discriminate.
  destruct Hb; open_stages; read_entry H.
  all: do 6 eexists; split; [reflexivity | split; [eassumption |]].
  all: apply In_final_trace; find_in.
Qed.

(** X13. A fraud output in the result is the response to a query built
    from the claim description of the parsed claim that the same result
    holds. *)
Theorem fraud_query_reads_parsed_claim q w fa :
  dict_get (process_claim_run_agents q w) "FraudDetectionAgent Output"
    = Some fa ->
  exists pc desc a f,
    dict_get (process_claim_run_agents q w) "Parsed Claim" = Some pc
    /\ fraud_field pc = inr desc
    /\ In (Invoked a (fraud_query desc) f fa) (run_trace q w).
Proof.
  intros H.
  destruct (run_shape q w) as (o & entries & tr & Hb & _ & _ & _ & Hr & Ht).
  rewrite Hr in *. rewrite Ht. clear Hr Ht.
  rewrite !dict_get_final by discriminate.
  destruct Hb; open_stages; read_entry H.
  all: do 4 eexists; split; [reflexivity | split; [eassumption |]].
  all: apply In_final_trace; find_in.
Qed.

(** ** The shapes of response invoke_agent accepts *)

(** X1. When the agent answers with an empty tuple, taking its first
    element raises IndexError inside the [try]: [invoke_agent] logs it and
    returns the sentinel, as for a fault of the service. *)
Theorem invoke_agent_empty_tuple a q s w' :
  get_response (agent_client a) (agent_definition a) q (st_world s)
    = (inr (VTuple []), w') ->
  let e := mkExn IndexError "tuple index out of range" in
  invoke_agent a q s
    = (Normal (VStr SENTINEL),
       mkState w' (st_results s)
         (st_trace s
            ++ [Logged "Error invoking agent." e;
                Invoked a q (Some e) (VStr SENTINEL)])).
Proof.
  intros E e.
  unfold invoke_agent, bind, try_except, call, logging_exception, emit, ret, lift.
  rewrite E. cbn. now rewrite <- app_assoc.
Qed.

(** X2. [invoke_agent] returns the first element of a non-empty tuple
    answer, whatever that element is (a tuple inside stays a tuple), and
    returns any other answer as it is; nothing is logged in either case. *)
Theorem invoke_agent_unwraps_once a q s raw w' :
  get_response (agent_client a) (agent_definition a) q (st_world s)
    = (inr raw, w') ->
  (forall x rest,
      raw = VTuple (x :: rest) ->
      invoke_agent a q s
        = (Normal x,
           mkState w' (st_results s) (st_trace s ++ [Invoked a q None x])))
  /\ ((forall items, raw <> VTuple items) ->
      invoke_agent a q s
        = (Normal raw,
           mkState w' (st_results s) (st_trace s ++ [Invoked a q None raw]))).
Proof.
  intros E.
  unfold invoke_agent, bind, try_except, call, logging_exception, emit, ret, lift.
  rewrite E. split.
  - intros x rest ->. reflexivity.
  - intros Hraw. destruct raw; try reflexivity. now destruct (Hraw l).
Qed.

(** ** The page *)

(** X14. When the connection string is empty, or the model deployment
    name is unset or empty (although the run never reads it), the script
    logs and shows the configuration error and stops: no run takes place,
    clicked or not, and the services are untouched. *)
Theorem missing_configuration_stops m q clicked w :
  PROJECT_CONNECTION_STRING = ""%string \/ m = None \/ m = Some ""%string ->
  app_script m q clicked w
    = mkPage [LogError "Missing required configuration.";
              ErrorBox "Missing required configuration."]
        Stopped w [].
Proof.
  intros H. unfold app_script, configured, truthy.
  destruct H as [-> | [-> | ->]]; cbn; try reflexivity.
  - destruct PROJECT_CONNECTION_STRING; reflexivity.
  - destruct PROJECT_CONNECTION_STRING; reflexivity.
Qed.

(** X15. The script never ends on the TypeError of the concatenation at
    line 191: what it adds to the message is always a [str].  It ends at
    its last line or at [st.stop()]. *)
Theorem page_never_crashes m q clicked w :
  ending (app_script m q clicked w) = Finished
  \/ ending (app_script m q clicked w) = Stopped.
Proof.
  unfold app_script.
  destruct (negb (configured m)); [right; reflexivity |].
  destruct clicked; [| left; reflexivity].
  change (st_results (snd (run q w))) with (process_claim_run_agents q w).
  unfold results_view.
  destruct (result_cases q w)
    as [(_ & _ & r1 & pc & pa & fa & ce & ->)
       | [(_ & r1 & ->) | (e & n & entries & _ & _ & _ & _ & _ & Herr)]].
  - left. reflexivity.
  - left. reflexivity.
  - rewrite Herr. left. reflexivity.
Qed.

(** X16. After a click, a run aborted by an exception or stopped by the
    fatal parse error is shown as one error box with the text of the error
    after the spinner: no stage output recorded before the failure and no
    detailed log is rendered. *)
Theorem failed_run_shows_only_the_error m q w :
  configured m = true ->
  (forall e,
      fst (try_body q (mkState w [] [])) = Raised e ->
      shown (app_script m q true w)
        = page_head
            ++ [Spinner "Processing the claim...";
                ErrorBox ("An error occurred: " ++ exn_msg e)%string])
  /\ (fst (run q w) = Returned ->
      shown (app_script m q true w)
        = page_head
            ++ [Spinner "Processing the claim...";
                ErrorBox ("An error occurred: " ++ FATAL_PARSE)%string]).
Proof.
  intros Hc. unfold app_script. rewrite Hc. cbn [negb].
  change (st_results (snd (run q w))) with (process_claim_run_agents q w).
  unfold results_view.
  destruct (result_cases q w)
    as [(Ho & Hb & _) | [(Ho & r1 & ->) | (e & n & entries & Ho & Hb & _ & _ & _ & Herr)]].
  - split; intros; congruence.
  - split; [| reflexivity].
    intros e Hb. exfalso.
    destruct (run_of_body q w) as (Ho' & _). rewrite Hb in Ho'. cbn in Ho'.
    congruence.
  - split; [| congruence].
    intros e' Hb'. assert (e' = e) by congruence. subst e'.
    rewrite Herr. reflexivity.
Qed.

(** X17. After a click, a result without ["error"] is complete: the three
    code blocks show the recorded policy, fraud and evaluator outputs (the
    default text is never shown), the download carries the parsed claim
    and the detailed log the whole result. *)
Theorem completed_run_shows_outputs m q w :
  configured m = true ->
  dict_get (process_claim_run_agents q w) "error" = None ->
  exists r1 pc pa fa ce,
    process_claim_run_agents q w
      = [("ClaimHandlerAgent Output", r1); ("Parsed Claim", pc);
         ("PolicyAssessorAgent Output", pa);
         ("FraudDetectionAgent Output", fa);
         ("ClaimEvaluatorAgent Output", ce)]
    /\ shown (app_script m q true w)
       = page_head
           ++ [Spinner "Processing the claim...";
               SuccessBox "Processing complete!";
               Header "Summary" "gray";
               Subheader "Policy Agent Output"; CodeBlock pa;
               Subheader "Fraud Detection Agent Output"; CodeBlock fa;
               Subheader "Claim Evaluation"; CodeBlock ce;
               DownloadButton "Download Claim (JSON)" pc 2
                 "parsed_claim.json" "application/json";
               Expander "Show detailed logs"
                 [JsonView (process_claim_run_agents q w)]].
Proof.
  intros Hc Hn. unfold app_script. rewrite Hc. cbn [negb].
  change (st_results (snd (run q w))) with (process_claim_run_agents q w).
  unfold results_view.
  destruct (result_cases q w)
    as [(_ & _ & r1 & pc & pa & fa & ce & E)
       | [(_ & r1 & E) | (e & n & entries & _ & _ & _ & _ & _ & Herr)]].
  - exists r1, pc, pa, fa, ce. split; [exact E |]. rewrite E. reflexivity.
  - rewrite E in Hn. discriminate.
  - congruence.
Qed.

End Facts.

(** * The claims on stub platforms *)

Import Stub.

Local Open Scope list_scope.

(** Two answers on which [json.loads] raises JSONDecodeError end the run
    with the fatal parse message, after two round trips with the handler. *)
Lemma fatal_parse_stops_run_witness :
  let w : @World scripted := [inr (VStr "not json"); inr (VStr "sorry")] in
  (invocations (run_trace CLAIM_QUERY w)
     = [Invoked handler (CLAIM_QUERY ++ JSON_FORMAT)%string None (VStr "not json");
        Invoked handler clarification_query None (VStr "sorry")]
   /\ @json_loads scripted (@py_str scripted (VStr "not json")) = inl expecting_value
   /\ @json_loads scripted (@py_str scripted (VStr "sorry")) = inl expecting_value)
  /\ fst (run CLAIM_QUERY w) = Returned
  /\ dict_get (process_claim_run_agents CLAIM_QUERY w) "error"
     = Some (VStr FATAL_PARSE).
Proof.
  intros w.
  assert (H : invocations (run_trace CLAIM_QUERY w)
     = [Invoked handler (CLAIM_QUERY ++ JSON_FORMAT)%string None (VStr "not json");
        Invoked handler clarification_query None (VStr "sorry")])
    by (vm_compute; reflexivity).
  assert (L1 : @json_loads scripted (@py_str scripted (VStr "not json")) = inl expecting_value)
    by (vm_compute; reflexivity).
  assert (L2 : @json_loads scripted (@py_str scripted (VStr "sorry")) = inl expecting_value)
    by (vm_compute; reflexivity).
  destruct (fatal_parse_stops_run CLAIM_QUERY w _ _ _ _ _ _ _ _ _ _ _
              H L1 eq_refl L2 eq_refl) as (H1 & H2 & _).
  repeat split; assumption.
Defined.

(** The claim of C1 as stated fails: neither answer is JSON, but the
    second is nested so deep that [json.loads] stops on a RecursionError,
    which line 116 does not catch.  The run does not end at the
    [return results] of line 119, and what it reports under ["error"] is
    the text of the RecursionError, not the fatal parse message. *)
Lemma deep_clarification_is_not_fatal :
  let w : @World scripted :=
    [inr (VStr "not json"); inr (VStr deep_open_text)] in
  (valid_json "not json" = false /\ valid_json deep_open_text = false)
  /\ @json_loads scripted (@py_str scripted (VStr "not json"))
     = inl expecting_value
  /\ @json_loads scripted (@py_str scripted (VStr deep_open_text))
     = inl (recursion_error_in "array")
  /\ invocations (run_trace CLAIM_QUERY w)
     = [Invoked handler (CLAIM_QUERY ++ JSON_FORMAT)%string None
          (VStr "not json");
        Invoked handler clarification_query None (VStr deep_open_text)]
  /\ fst (run CLAIM_QUERY w) = Normal tt
  /\ process_claim_run_agents CLAIM_QUERY w
     = [("ClaimHandlerAgent Output", VStr "not json");
        ("error",
         VStr "maximum recursion depth exceeded while decoding a JSON array from a unicode string")]
  /\ dict_get (process_claim_run_agents CLAIM_QUERY w) "error"
     <> Some (VStr FATAL_PARSE).
Proof.
  intros w. repeat split; try (vm_compute; reflexivity).
  vm_compute. discriminate.
Qed.



(** A timed-out round trip returns the sentinel and logs the fault. *)
Lemma invoke_agent_catches_faults_witness :
  @get_response scripted tt (agent_id "ClaimHandlerAgent") "query"
    (script [inl timeout])
    = (inl timeout, script [])
  /\ invoke_agent handler "query" (mkState (script [inl timeout]) [] [])
     = (Normal (VStr "Error invoking agent."),
        mkState (script []) []
          [Logged "Error invoking agent." timeout;
           Invoked handler "query" (Some timeout)
             (VStr "Error invoking agent.")]).
Proof.
  split; [reflexivity |].
  apply (proj1 (invoke_agent_catches_faults handler "query"
                  (mkState (script [inl timeout]) [] []))).
  reflexivity.
Defined.

(** The claim of C3 as stated fails: the text returned on a fault is not
    the text the claim quotes. *)
Lemma sentinel_ends_with_full_stop :
  @get_response scripted tt (agent_id "ClaimHandlerAgent") "query"
    (script [inl timeout])
    = (inl timeout, script [])
  /\ fst (invoke_agent handler "query" (mkState (script [inl timeout]) [] []))
     <> Normal (VStr "Error invoking agent").
Proof. split; [reflexivity | vm_compute; discriminate]. Qed.

(** A run aborted at the fraud field keeps the three entries written. *)
Lemma outputs_recorded_before_use_witness :
  let w : @World scripted := [inr (VStr bad_fraud_text); inr (VStr "covered")] in
  let e := mkExn AttributeError "'int' object has no attribute 'get'" in
  fst (try_body CLAIM_QUERY (mkState w [] [])) = Raised e
  /\ process_claim_run_agents CLAIM_QUERY w
     = [("ClaimHandlerAgent Output", VStr bad_fraud_text);
        ("Parsed Claim", VDict [("fraud_detector", VInt 3)]);
        ("PolicyAssessorAgent Output", VStr "covered")]
       ++ [("error", VStr "'int' object has no attribute 'get'")].
Proof.
  intros w e.
  assert (E : try_body CLAIM_QUERY (mkState w [] [])
              = (Raised e, snd (try_body CLAIM_QUERY (mkState w [] []))))
    by (vm_compute; reflexivity).
  split; [now rewrite E |].
  destruct (proj2 (outputs_recorded_before_use CLAIM_QUERY w) e _ E)
    as (H & _).
  rewrite H. vm_compute. reflexivity.
Defined.

(** An empty object as the parsed claim: every field reads [None] and the
    run completes.  A claim whose policy section is null: the run stops on
    the AttributeError of [None]. *)
Lemma well_shaped_claim_completes_witness :
  let w : @World scripted :=
    [inr (VStr "{}"); inr (VStr "not covered"); inr (VStr "no red flags");
     inr (VStr "reject")] in
  let w' : @World scripted :=
    [inr (VStr null_policy_text); inr (VStr "not covered")] in
  (@lookups_succeed scripted
   /\ @json_loads scripted (@py_str scripted (VStr "{}")) = inr (VDict [])
   /\ well_shaped (VDict []) = true
   /\ @json_loads scripted (@py_str scripted (VStr null_policy_text))
      = inr (VDict [("policy_assessor", VNone); ("fraud_detector", VDict [])])
   /\ well_shaped
        (VDict [("policy_assessor", VNone); ("fraud_detector", VDict [])])
      = false)
  /\ process_claim_run_agents CLAIM_QUERY w
     = [("ClaimHandlerAgent Output", VStr "{}"); ("Parsed Claim", VDict []);
        ("PolicyAssessorAgent Output", VStr "not covered");
        ("FraudDetectionAgent Output", VStr "no red flags");
        ("ClaimEvaluatorAgent Output", VStr "reject")]
  /\ @policy_query scripted (field (VDict []) "policy_assessor" "policy_number")
       (field (VDict []) "policy_assessor" "claim_type")
       (field (VDict []) "policy_assessor" "damage_claim")
     = "Based on the claim details: policy number None, claim type None, and damage claim amount None euros, determine if the customer is appropriately covered under their policy."%string
  /\ dict_get (process_claim_run_agents CLAIM_QUERY w') "error"
     = Some (VStr "'NoneType' object has no attribute 'get'")
  /\ dict_get (process_claim_run_agents CLAIM_QUERY w')
       "ClaimEvaluatorAgent Output" = None.
Proof.
  intros w w'.
  assert (Lk : @lookups_succeed scripted)
    by (intros cl id w0; exists id, w0; reflexivity).
  assert (H : invocations (run_trace CLAIM_QUERY w)
     = Invoked handler (CLAIM_QUERY ++ JSON_FORMAT)%string None (VStr "{}")
         :: tl (invocations (run_trace CLAIM_QUERY w)))
    by (vm_compute; reflexivity).
  assert (L : @json_loads scripted (@py_str scripted (VStr "{}")) = inr (VDict []))
    by (vm_compute; reflexivity).
  assert (H' : invocations (run_trace CLAIM_QUERY w')
     = Invoked handler (CLAIM_QUERY ++ JSON_FORMAT)%string None
         (VStr null_policy_text)
         :: tl (invocations (run_trace CLAIM_QUERY w')))
    by (vm_compute; reflexivity).
  assert (L' : @json_loads scripted (@py_str scripted (VStr null_policy_text))
               = inr (VDict [("policy_assessor", VNone);
                             ("fraud_detector", VDict [])]))
    by (vm_compute; reflexivity).
  destruct (proj1 (well_shaped_claim_completes CLAIM_QUERY w _ _ _ _ _ _ Lk H L)
              eq_refl)
    as (ap & fp & pa & af & ff & fa & ae & fe & ce & Hrest & Hres & _).
  destruct (proj2 (well_shaped_claim_completes CLAIM_QUERY w' _ _ _ _ _ _
                     Lk H' L') eq_refl)
    as (v & Hv & Herr & _ & _ & Hce & _).
  injection Hv as <-.
  split; [auto |].
  split; [vm_compute; reflexivity |].
  split; [reflexivity |].
  split; [exact Herr | exact Hce].
Defined.

(** The claim of C6 as stated fails: the answer is valid JSON, its policy
    section is null, and the run stops with two entries and an error. *)
Lemma null_section_aborts_run :
  let w : @World scripted :=
    [inr (VStr null_policy_text); inr (VStr "covered");
     inr (VStr "no red flags"); inr (VStr "approve")] in
  @json_loads scripted null_policy_text
    = inr (VDict [("policy_assessor", VNone); ("fraud_detector", VDict [])])
  /\ process_claim_run_agents CLAIM_QUERY w
     = [("ClaimHandlerAgent Output", VStr null_policy_text);
        ("Parsed Claim",
         VDict [("policy_assessor", VNone); ("fraud_detector", VDict [])]);
        ("error", VStr "'NoneType' object has no attribute 'get'")]
  /\ invocations (run_trace CLAIM_QUERY w)
     = [Invoked handler (CLAIM_QUERY ++ JSON_FORMAT)%string None
          (VStr null_policy_text)].
Proof. repeat split; vm_compute; reflexivity. Qed.



(** Two runs in a row on the deterministic stub. *)
Lemma deterministic_stub_same_result_witness :
  @deterministic_services (fixed claim_text)
  /\ @process_claim_run_agents (fixed claim_text) CLAIM_QUERY
       (@run_world (fixed claim_text) CLAIM_QUERY 0)
     = @process_claim_run_agents (fixed claim_text) CLAIM_QUERY 0.
Proof.
  assert (D : @deterministic_services (fixed claim_text))
    by (repeat split; reflexivity).
  split; [exact D |].
  exact (proj1 (@deterministic_stub_same_result (fixed claim_text)
                  CLAIM_QUERY 0 D)).
Defined.

(** No answer at all: both round trips with the handler time out. *)
Lemma handler_fault_forces_clarification_witness :
  let w : @World scripted := [] in
  invocations (run_trace CLAIM_QUERY w)
    = [Invoked handler (CLAIM_QUERY ++ JSON_FORMAT)%string (Some timeout)
         (VStr SENTINEL);
       Invoked handler clarification_query (Some timeout) (VStr SENTINEL)]
  /\ fst (run CLAIM_QUERY w) = Returned
  /\ process_claim_run_agents CLAIM_QUERY w
     = [("ClaimHandlerAgent Output", VStr SENTINEL);
        ("error", VStr FATAL_PARSE)].
Proof.
  intros w.
  assert (H : invocations (run_trace CLAIM_QUERY w)
    = [Invoked handler (CLAIM_QUERY ++ JSON_FORMAT)%string (Some timeout)
         (VStr SENTINEL);
       Invoked handler clarification_query (Some timeout) (VStr SENTINEL)])
    by (vm_compute; reflexivity).
  destruct (handler_fault_forces_clarification CLAIM_QUERY w _ _ _ _ _ H)
    as (_ & _ & _ & _ & Hlast).
  destruct (Hlast _ _ _ _ _ eq_refl) as (H1 & H2 & _).
  repeat split; assumption.
Defined.

(** The same run returns exactly two entries. *)
Lemma fatal_result_has_two_entries_witness :
  let w : @World scripted := [] in
  fst (run CLAIM_QUERY w) = Returned
  /\ dict_keys (process_claim_run_agents CLAIM_QUERY w)
     = ["ClaimHandlerAgent Output"; "error"]%string.
Proof.
  intros w.
  assert (H : fst (run CLAIM_QUERY w) = Returned) by (vm_compute; reflexivity).
  split; [exact H |].
  destruct (fatal_result_has_two_entries CLAIM_QUERY w H)
    as (a & f & r1 & _ & _ & _ & Hk).
  exact Hk.
Defined.

(** * The further properties on stub platforms *)

Lemma invoke_agent_empty_tuple_witness :
  let e := mkExn IndexError "tuple index out of range" in
  @get_response scripted tt (agent_id "ClaimHandlerAgent") "query"
    (script [inr (VTuple [])])
    = (inr (VTuple []), script [])
  /\ invoke_agent handler "query" (mkState (script [inr (VTuple [])]) [] [])
     = (Normal (VStr SENTINEL),
        mkState (script []) []
          [Logged "Error invoking agent." e;
           Invoked handler "query" (Some e) (VStr SENTINEL)]).
Proof.
  intros e. split; [reflexivity |].
  apply (invoke_agent_empty_tuple handler "query"
           (mkState (script [inr (VTuple [])]) [] [])).
  reflexivity.
Defined.

(** A tuple whose first element is a tuple: one level is taken off. *)
Lemma invoke_agent_unwraps_once_witness :
  let raw := VTuple [VTuple [VStr "a"]; VStr "b"] in
  @get_response scripted tt (agent_id "ClaimHandlerAgent") "query"
    (script [inr raw])
    = (inr raw, script [])
  /\ invoke_agent handler "query" (mkState (script [inr raw]) [] [])
     = (Normal (VTuple [VStr "a"]),
        mkState (script []) []
          [Invoked handler "query" None (VTuple [VStr "a"])]).
Proof.
  intros raw. split; [reflexivity |].
  apply (proj1 (invoke_agent_unwraps_once handler "query"
                  (mkState (script [inr raw]) [] []) raw (script [])
                  eq_refl) (VTuple [VStr "a"]) [VStr "b"]).
  reflexivity.
Defined.

(** A first answer in a markdown fence, a second one in plain JSON. *)
Lemma clarification_recovers_witness :
  let w : @World scripted :=
    [inr (VStr "```json {} ```"); inr (VStr claim_text);
     inr (VStr "covered"); inr (VStr "no red flags"); inr (VStr "approve")] in
  (@json_loads scripted (@py_str scripted (VStr "```json {} ```")) = inl expecting_value
   /\ @json_loads scripted (@py_str scripted (VStr claim_text)) = inr claim_value)
  /\ clarifications (run_trace CLAIM_QUERY w)
     = [Invoked handler clarification_query None (VStr claim_text)]
  /\ dict_get (process_claim_run_agents CLAIM_QUERY w)
       "ClaimHandlerAgent Output" = Some (VStr "```json {} ```")
  /\ dict_get (process_claim_run_agents CLAIM_QUERY w) "Parsed Claim"
     = Some claim_value.
Proof.
  intros w.
  assert (H : invocations (run_trace CLAIM_QUERY w)
     = Invoked handler (CLAIM_QUERY ++ JSON_FORMAT)%string None
         (VStr "```json {} ```")
       :: Invoked handler clarification_query None (VStr claim_text)
       :: skipn 2 (invocations (run_trace CLAIM_QUERY w)))
    by (vm_compute; reflexivity).
  assert (L1 : @json_loads scripted (@py_str scripted (VStr "```json {} ```"))
               = inl expecting_value) by (vm_compute; reflexivity).
  assert (L2 : @json_loads scripted (@py_str scripted (VStr claim_text)) = inr claim_value)
    by (vm_compute; reflexivity).
  destruct (clarification_recovers CLAIM_QUERY w _ _ _ _ _ _ _ _ _ _ _
              H L1 eq_refl L2) as (_ & _ & Hc & _ & Hh & Hp & _).
  repeat split; assumption.
Defined.

Lemma error_entry_is_text_witness :
  let w : @World scripted := [] in
  dict_get (process_claim_run_agents CLAIM_QUERY w) "error"
    = Some (VStr FATAL_PARSE)
  /\ exists text, VStr FATAL_PARSE = VStr text.
Proof.
  intros w.
  assert (H : dict_get (process_claim_run_agents CLAIM_QUERY w) "error"
              = Some (VStr FATAL_PARSE)) by (vm_compute; reflexivity).
  split; [exact H |].
  exact (error_entry_is_text CLAIM_QUERY w _ H).
Defined.

(** The handler answers with a JSON list. *)
Lemma non_object_claim_aborts_witness :
  let w : @World scripted := [inr (VStr "[1, 2]"); inr (VStr "covered")] in
  @json_loads scripted (@py_str scripted (VStr "[1, 2]")) = inr (VList [VInt 1; VInt 2])
  /\ process_claim_run_agents CLAIM_QUERY w
     = [("ClaimHandlerAgent Output", VStr "[1, 2]");
        ("Parsed Claim", VList [VInt 1; VInt 2]);
        ("error", VStr "'list' object has no attribute 'get'")].
Proof.
  intros w.
  assert (H : invocations (run_trace CLAIM_QUERY w)
     = Invoked handler (CLAIM_QUERY ++ JSON_FORMAT)%string None (VStr "[1, 2]")
         :: tl (invocations (run_trace CLAIM_QUERY w)))
    by (vm_compute; reflexivity).
  assert (L : @json_loads scripted (@py_str scripted (VStr "[1, 2]"))
              = inr (VList [VInt 1; VInt 2])) by (vm_compute; reflexivity).
  split; [exact L |].
  refine (proj1 (non_object_claim_aborts CLAIM_QUERY w _ _ _ _ _ _ H L _)).
  intros d. discriminate.
Defined.

Lemma credential_fault_result_witness :
  @open_credential (journaled "credential") (journal "credential" [])
    = (inl outage, journal "credential" ["credential refused"%string])
  /\ @process_claim_run_agents (journaled "credential") CLAIM_QUERY
       (journal "credential" [])
     = [("error", VStr "no credential available")]
  /\ @run_world (journaled "credential") CLAIM_QUERY (journal "credential" [])
     = journal "credential" ["credential refused"%string].
Proof.
  split; [reflexivity |].
  destruct (@credential_fault_result (journaled "credential") CLAIM_QUERY
              (journal "credential" []) outage
              (journal "credential" ["credential refused"%string]) eq_refl)
    as (H1 & _ & H3).
  split; assumption.
Defined.

Lemma client_fault_releases_credential_witness :
  @create_client (journaled "client") tt "stub"
    (journal "client" ["credential opened"%string])
    = (inl outage,
       journal "client" ["credential opened"; "client refused"]%string)
  /\ @run_world (journaled "client") CLAIM_QUERY (journal "client" [])
     = journal "client"
         ["credential opened"; "client refused"; "credential closed"]%string.
Proof.
  split; [reflexivity |].
  destruct (@client_fault_releases_credential (journaled "client") CLAIM_QUERY
              (journal "client" []) tt
              (journal "client" ["credential opened"%string]) outage
              (journal "client" ["credential opened"; "client refused"]%string)
              eq_refl eq_refl)
    as (_ & _ & H3).
  exact H3.
Defined.

Lemma resources_released_witness :
  exists w3,
    @run_world (journaled "") CLAIM_QUERY (journal "" [])
    = @close_credential (journaled "") tt (@close_client (journaled "") tt w3).
Proof.
  exact (@resources_released (journaled "") CLAIM_QUERY (journal "" []) tt
           (journal "" ["credential opened"%string]) tt
           (journal "" ["credential opened"; "client opened"]%string)
           eq_refl eq_refl).
Defined.

Lemma evaluator_reads_recorded_outputs_witness :
  let w : @World scripted :=
    [inr (VStr claim_text); inr (VStr "covered"); inr (VStr "no red flags");
     inr (VStr "approve")] in
  dict_get (process_claim_run_agents CLAIM_QUERY w) "ClaimEvaluatorAgent Output"
    = Some (VStr "approve")
  /\ exists pa fa (a : @Agent scripted) f,
       dict_get (process_claim_run_agents CLAIM_QUERY w)
         "PolicyAssessorAgent Output" = Some pa
       /\ dict_get (process_claim_run_agents CLAIM_QUERY w)
            "FraudDetectionAgent Output" = Some fa
       /\ In (Invoked a (@evaluator_query scripted pa fa) f (VStr "approve"))
            (run_trace CLAIM_QUERY w).
Proof.
  intros w.
  assert (H : dict_get (process_claim_run_agents CLAIM_QUERY w)
                "ClaimEvaluatorAgent Output" = Some (VStr "approve"))
    by (vm_compute; reflexivity).
  split; [exact H |].
  exact (evaluator_reads_recorded_outputs CLAIM_QUERY w _ H).
Defined.

Lemma policy_query_reads_parsed_claim_witness :
  let w : @World scripted :=
    [inr (VStr claim_text); inr (VStr "covered"); inr (VStr "no red flags");
     inr (VStr "approve")] in
  dict_get (process_claim_run_agents CLAIM_QUERY w) "PolicyAssessorAgent Output"
    = Some (VStr "covered")
  /\ exists pc n t c (a : @Agent scripted) f,
       dict_get (process_claim_run_agents CLAIM_QUERY w) "Parsed Claim"
         = Some pc
       /\ policy_fields pc = inr (n, t, c)
       /\ In (Invoked a (@policy_query scripted n t c) f (VStr "covered"))
            (run_trace CLAIM_QUERY w).
Proof.
  intros w.
  assert (H : dict_get (process_claim_run_agents CLAIM_QUERY w)
                "PolicyAssessorAgent Output" = Some (VStr "covered"))
    by (vm_compute; reflexivity).
  split; [exact H |].
  exact (policy_query_reads_parsed_claim CLAIM_QUERY w _ H).
Defined.

Lemma fraud_query_reads_parsed_claim_witness :
  let w : @World scripted :=
    [inr (VStr claim_text); inr (VStr "covered"); inr (VStr "no red flags");
     inr (VStr "approve")] in
  dict_get (process_claim_run_agents CLAIM_QUERY w) "FraudDetectionAgent Output"
    = Some (VStr "no red flags")
  /\ exists pc desc (a : @Agent scripted) f,
       dict_get (process_claim_run_agents CLAIM_QUERY w) "Parsed Claim"
         = Some pc
       /\ fraud_field pc = inr desc
       /\ In (Invoked a (@fraud_query scripted desc) f (VStr "no red flags"))
            (run_trace CLAIM_QUERY w).
Proof.
  intros w.
  assert (H : dict_get (process_claim_run_agents CLAIM_QUERY w)
                "FraudDetectionAgent Output" = Some (VStr "no red flags"))
    by (vm_compute; reflexivity).
  split; [exact H |].
  exact (fraud_query_reads_parsed_claim CLAIM_QUERY w _ H).
Defined.

(** The model deployment name is unset: a click changes nothing. *)
Lemma missing_configuration_stops_witness :
  let w : @World scripted := [inr (VStr claim_text)] in
  app_script None CLAIM_QUERY true w
    = mkPage [LogError "Missing required configuration.";
              ErrorBox "Missing required configuration."]
        Stopped w [].
Proof.
  intros w.
  apply (@missing_configuration_stops scripted None CLAIM_QUERY true w).
  right. left. reflexivity.
Defined.

(** A run aborted at the fraud field: the recorded policy output is not
    shown. *)
Lemma failed_run_shows_only_the_error_witness :
  let w : @World scripted := [inr (VStr bad_fraud_text); inr (VStr "covered")] in
  let e := mkExn AttributeError "'int' object has no attribute 'get'" in
  (@configured scripted (Some "gpt-4o"%string) = true
   /\ fst (try_body CLAIM_QUERY (mkState w [] [])) = Raised e)
  /\ shown (app_script (Some "gpt-4o"%string) CLAIM_QUERY true w)
     = page_head
         ++ [Spinner "Processing the claim...";
             ErrorBox
               "An error occurred: 'int' object has no attribute 'get'"].
Proof.
  intros w e.
  assert (C : @configured scripted (Some "gpt-4o"%string) = true)
    by reflexivity.
  assert (E : fst (try_body CLAIM_QUERY (mkState w [] [])) = Raised e)
    by (vm_compute; reflexivity).
  split; [split; assumption |].
  exact (proj1 (failed_run_shows_only_the_error (Some "gpt-4o"%string)
                  CLAIM_QUERY w C) e E).
Defined.

Lemma completed_run_shows_outputs_witness :
  let w : @World scripted :=
    [inr (VStr claim_text); inr (VStr "covered"); inr (VStr "no red flags");
     inr (VStr "approve")] in
  (@configured scripted (Some "gpt-4o"%string) = true
   /\ dict_get (process_claim_run_agents CLAIM_QUERY w) "error" = None)
  /\ exists r1 pc pa fa ce,
       process_claim_run_agents CLAIM_QUERY w
         = [("ClaimHandlerAgent Output", r1); ("Parsed Claim", pc);
            ("PolicyAssessorAgent Output", pa);
            ("FraudDetectionAgent Output", fa);
            ("ClaimEvaluatorAgent Output", ce)]
       /\ shown (app_script (Some "gpt-4o"%string) CLAIM_QUERY true w)
          = page_head
              ++ [Spinner "Processing the claim...";
                  SuccessBox "Processing complete!";
                  Header "Summary" "gray";
                  Subheader "Policy Agent Output"; CodeBlock pa;
                  Subheader "Fraud Detection Agent Output"; CodeBlock fa;
                  Subheader "Claim Evaluation"; CodeBlock ce;
                  DownloadButton "Download Claim (JSON)" pc 2
                    "parsed_claim.json" "application/json";
                  Expander "Show detailed logs"
                    [JsonView (process_claim_run_agents CLAIM_QUERY w)]].
Proof.
  intros w.
  assert (C : @configured scripted (Some "gpt-4o"%string) = true)
    by reflexivity.
  assert (N : dict_get (process_claim_run_agents CLAIM_QUERY w) "error" = None)
    by (vm_compute; reflexivity).
  split; [split; assumption |].
  exact (completed_run_shows_outputs (Some "gpt-4o"%string) CLAIM_QUERY w C N).
Defined.
